(** * Steering odometry and speed limiter of ros2_controllers

    A shallow embedding of

    - [four_steering_controller/src/speed_limiter.cpp]
    - [steering_controllers_library/src/steering_odometry.cpp]

    A C++ [double] is a binary64 number: it is modelled by Rocq's primitive
    [float], whose operations are the IEEE 754 ones (round to nearest even,
    signed zeros, infinities, one NaN).  The comparison operators of C++ are
    [<?], [<=?] and [=?]; [a != b] is [negb (a =? b)].  A C++ [float] is a
    binary32 number, modelled in the module [binary32].

    The functions of <cmath> that IEEE 754 does not fix bit for bit
    ([tan], [cos], [sin], [atan], [atan2], [hypot], [pow], [copysign] on a
    NaN) are a parameter of the development, the record [cmath.t].

    A member function is a function of the object ([this]) that returns the
    object after the call, paired with the returned value where there is one.
    A [double &] parameter is returned the same way.  A [throw] is the left
    injection of [result].  A local variable read before any assignment has
    the value of an extra argument of the function. *)

From Stdlib Require Import Floats ZArith Uint63 Bool List String Lia.
Import ListNotations.

Set Warnings "-inexact-float".

Open Scope float_scope.

(** ** The C++ run time the code relies on *)

(** [std::runtime_error], with its message. *)
Inductive runtime_error : Type :=
| RuntimeError (what : string).

(** A computation that returns or throws. *)
Definition result (A : Type) : Type := (runtime_error + A)%type.

Definition ret {A : Type} (a : A) : result A := inr a.

Definition throw {A : Type} (what : string) : result A := inl (RuntimeError what).

Definition bind {A B : Type} (c : result A) (k : A -> result B) : result B :=
  match c with
  | inl e => inl e
  | inr a => k a
  end.

Notation "x <- c ;; k" := (bind c (fun x => k))
  (at level 61, c at next level, right associativity).

(** [size_t] to [double]. *)
Definition float_of_nat (n : nat) : float :=
  PrimFloat.of_uint63 (Uint63.of_Z (Z.of_nat n)).

(** The functions of <cmath> taken as parameters. *)
Module cmath.

Record t : Type := Build {
  tan : float -> float;
  cos : float -> float;
  sin : float -> float;
  atan : float -> float;
  atan2 : float -> float -> float;
  hypot : float -> float -> float;
  pow : float -> float -> float;
  copysign : float -> float -> float
}.

(** [fabs], and [abs] on a [double] (the overload of [std::abs] that the
    headers of the standard library bring into the global namespace): the
    sign bit cleared. *)
Definition fabs (x : float) : float := PrimFloat.abs x.

(** [sqrt] is correctly rounded by IEEE 754. *)
Definition sqrt (x : float) : float := PrimFloat.sqrt x.

(** [std::isnan]. *)
Definition isnan (x : float) : bool := PrimFloat.is_nan x.

(** [M_PI_2], pi/2 rounded to binary64. *)
Definition M_PI_2 : float := 0x1.921fb54442d18p+0.

(** A low-accuracy implementation, to run the code on concrete inputs: short
    series for [sin] and [cos], a rational approximation of [atan], and
    [pow] for the exponents 0, 1 and 2.  Nothing below depends on its
    accuracy. *)
Definition approx_sin (x : float) : float :=
  x * (1 - x * x / 6 * (1 - x * x / 20 * (1 - x * x / 42))).

Definition approx_cos (x : float) : float :=
  1 - x * x / 2 * (1 - x * x / 12 * (1 - x * x / 30)).

Definition approx_atan (x : float) : float := x / (1 + 0.28 * x * x).

Definition approx_atan2 (y x : float) : float :=
  if 0 <? x then approx_atan (y / x)
  else if x <? 0 then
    if y <? 0 then approx_atan (y / x) - 2 * M_PI_2
    else approx_atan (y / x) + 2 * M_PI_2
  else if 0 <? y then M_PI_2
  else if y <? 0 then - M_PI_2
  else 0.

Definition approx_pow (x y : float) : float :=
  if y =? 0 then 1 else if y =? 1 then x else if y =? 2 then x * x else nan.

Definition approx : t :=
  {| tan := fun x => approx_sin x / approx_cos x;
     cos := approx_cos;
     sin := approx_sin;
     atan := approx_atan;
     atan2 := approx_atan2;
     hypot := fun x y => sqrt (x * x + y * y);
     pow := approx_pow;
     copysign := fun x y => if get_sign y then - abs x else abs x |}.

End cmath.

(** The two pieces of the rcppmath library (package rcpputils) the code uses. *)
Module rcppmath.

(** [rcppmath::clamp(v, lo, hi)]:
    [(v < lo) ? lo : (hi < v) ? hi : v].  Its [assert(!(hi < lo))] is not
    modelled: a release build compiles it out. *)
Definition clamp (v lo hi : float) : float :=
  if v <? lo then lo else if hi <? v then hi else v.

(** [rcppmath::RollingMeanAccumulator<double>]: a ring buffer of the window's
    size with a running sum.  The window size is at least 1. *)
Record RollingMeanAccumulator : Type := {
  buffer_ : list float;
  next_insert_ : nat;
  sum_ : float;
  buffer_filled_ : bool
}.

Definition make (rolling_window_size : nat) : RollingMeanAccumulator :=
  {| buffer_ := repeat 0 rolling_window_size;
     next_insert_ := 0;
     sum_ := 0;
     buffer_filled_ := false |}.

Fixpoint store (l : list float) (i : nat) (val : float) : list float :=
  match l, i with
  | [], _ => []
  | _ :: tl, O => val :: tl
  | hd :: tl, S j => hd :: store tl j val
  end.

Definition accumulate (a : RollingMeanAccumulator) (val : float)
  : RollingMeanAccumulator :=
  let sum := sum_ a - nth (next_insert_ a) (buffer_ a) 0 in
  let sum := sum + val in
  let buffer := store (buffer_ a) (next_insert_ a) val in
  let next_insert := S (next_insert_ a) in
  let filled := buffer_filled_ a || (List.length buffer <=? next_insert)%nat in
  {| buffer_ := buffer;
     next_insert_ := Nat.modulo next_insert (List.length buffer);
     sum_ := sum;
     buffer_filled_ := filled |}.

Definition getRollingMean (a : RollingMeanAccumulator) : float :=
  let valid_data_count :=
    if buffer_filled_ a then List.length (buffer_ a) else next_insert_ a in
  sum_ a / float_of_nat valid_data_count.

End rcppmath.

(** A C++ [float] is a binary32 number: a [spec_float] with 24 bits of
    precision and exponents below 128, with the operations IEEE 754 gives
    that format.  An expression of type [float] is evaluated in binary32
    ([FLT_EVAL_METHOD] 0); an operand of type [float] that meets a [double]
    is converted to [double] first, and a [double] stored in a [float] is
    rounded to the nearest binary32 number. *)
Module binary32.

Definition prec : Z := 24.
Definition emax : Z := 128.

Definition add (x y : spec_float) : spec_float := SFadd prec emax x y.
Definition sub (x y : spec_float) : spec_float := SFsub prec emax x y.
Definition div (x y : spec_float) : spec_float := SFdiv prec emax x y.
Definition ltb (x y : spec_float) : bool := SFltb x y.
Definition leb (x y : spec_float) : bool := SFleb x y.

(** [double] to [float]: rounded to nearest, ties to even; too large a
    magnitude gives an infinity. *)
Definition of_double (x : float) : spec_float :=
  match Prim2SF x with
  | S754_finite s m e => binary_round prec emax s m e
  | f => f
  end.

(** [float] to [double]: every binary32 number is a binary64 number. *)
Definition to_double (x : spec_float) : float :=
  match x with
  | S754_finite s m e => SF2Prim (binary_round FloatOps.prec FloatOps.emax s m e)
  | f => SF2Prim f
  end.

(** [rcppmath::clamp<float>]. *)
Definition clamp (v lo hi : spec_float) : spec_float :=
  if ltb v lo then lo else if ltb hi v then hi else v.

End binary32.

(** ** speed_limiter.cpp *)

Module four_steering_controller.

Record SpeedLimiter : Type := {
  has_velocity_limits_ : bool;
  has_acceleration_limits_ : bool;
  has_jerk_limits_ : bool;
  min_velocity_ : float;
  max_velocity_ : float;
  min_acceleration_ : float;
  max_acceleration_ : float;
  min_jerk_ : float;
  max_jerk_ : float
}.

Definition set_min_velocity (this : SpeedLimiter) (x : float) : SpeedLimiter :=
  {| has_velocity_limits_ := has_velocity_limits_ this;
     has_acceleration_limits_ := has_acceleration_limits_ this;
     has_jerk_limits_ := has_jerk_limits_ this;
     min_velocity_ := x;
     max_velocity_ := max_velocity_ this;
     min_acceleration_ := min_acceleration_ this;
     max_acceleration_ := max_acceleration_ this;
     min_jerk_ := min_jerk_ this;
     max_jerk_ := max_jerk_ this |}.

Definition set_min_acceleration (this : SpeedLimiter) (x : float) : SpeedLimiter :=
  {| has_velocity_limits_ := has_velocity_limits_ this;
     has_acceleration_limits_ := has_acceleration_limits_ this;
     has_jerk_limits_ := has_jerk_limits_ this;
     min_velocity_ := min_velocity_ this;
     max_velocity_ := max_velocity_ this;
     min_acceleration_ := x;
     max_acceleration_ := max_acceleration_ this;
     min_jerk_ := min_jerk_ this;
     max_jerk_ := max_jerk_ this |}.

Definition set_min_jerk (this : SpeedLimiter) (x : float) : SpeedLimiter :=
  {| has_velocity_limits_ := has_velocity_limits_ this;
     has_acceleration_limits_ := has_acceleration_limits_ this;
     has_jerk_limits_ := has_jerk_limits_ this;
     min_velocity_ := min_velocity_ this;
     max_velocity_ := max_velocity_ this;
     min_acceleration_ := min_acceleration_ this;
     max_acceleration_ := max_acceleration_ this;
     min_jerk_ := x;
     max_jerk_ := max_jerk_ this |}.

(** [SpeedLimiter::SpeedLimiter] (speed_limiter.cpp, lines 9-58): the
    member initialisers, then the three checks in the source's order. *)
Definition make
  (has_velocity_limits has_acceleration_limits has_jerk_limits : bool)
  (min_velocity max_velocity min_acceleration max_acceleration
     min_jerk max_jerk : float) : result SpeedLimiter :=
  let this :=
    {| has_velocity_limits_ := has_velocity_limits;
       has_acceleration_limits_ := has_acceleration_limits;
       has_jerk_limits_ := has_jerk_limits;
       min_velocity_ := min_velocity;
       max_velocity_ := max_velocity;
       min_acceleration_ := min_acceleration;
       max_acceleration_ := max_acceleration;
       min_jerk_ := min_jerk;
       max_jerk_ := max_jerk |} in
  this <-
    (if has_velocity_limits_ this then
       if cmath.isnan (max_velocity_ this) then
         throw "Cannot apply velocity limits if max_velocity is not specified"
       else if cmath.isnan (min_velocity_ this) then
         ret (set_min_velocity this (- max_velocity_ this))
       else ret this
     else ret this) ;;
  this <-
    (if has_acceleration_limits_ this then
       if cmath.isnan (max_acceleration_ this) then
         throw "Cannot apply acceleration limits if max_acceleration is not specified"
       else if cmath.isnan (min_acceleration_ this) then
         ret (set_min_acceleration this (- max_acceleration_ this))
       else ret this
     else ret this) ;;
  this <-
    (if has_jerk_limits_ this then
       if cmath.isnan (max_jerk_ this) then
         throw "Cannot apply jerk limits if max_jerk is not specified"
       else if cmath.isnan (min_jerk_ this) then
         ret (set_min_jerk this (- max_jerk_ this))
       else ret this
     else ret this) ;;
  ret this.

(** [tmp != 0.0 ? v / tmp : 1.0], the value every stage returns. *)
Definition ratio (tmp v : float) : float :=
  if negb (tmp =? 0) then v / tmp else 1.

(** The limiting functions take [v] by reference: each returns the pair of
    its return value and of the value left in [v]. *)

(** [SpeedLimiter::limit_velocity(double &)] (lines 136-146). *)
Definition limit_velocity (this : SpeedLimiter) (v : float) : float * float :=
  let tmp := v in
  let v :=
    if has_velocity_limits_ this
    then rcppmath.clamp v (min_velocity_ this) (max_velocity_ this)
    else v in
  (ratio tmp v, v).

(** [SpeedLimiter::limit_acceleration(double &, double, double)]
    (lines 148-163). *)
Definition limit_acceleration (this : SpeedLimiter) (v v0 dt : float)
  : float * float :=
  let tmp := v in
  let v :=
    if has_acceleration_limits_ this then
      let dv_min := min_acceleration_ this * dt in
      let dv_max := max_acceleration_ this * dt in
      let dv := rcppmath.clamp (v - v0) dv_min dv_max in
      v0 + dv
    else v in
  (ratio tmp v, v).

(** [SpeedLimiter::limit_jerk(double &, double, double, double)]
    (lines 165-185). *)
Definition limit_jerk (this : SpeedLimiter) (v v0 v1 dt : float)
  : float * float :=
  let tmp := v in
  let v :=
    if has_jerk_limits_ this then
      let dv := v - v0 in
      let dv0 := v0 - v1 in
      let dt2 := 2 * dt * dt in
      let da_min := min_jerk_ this * dt2 in
      let da_max := max_jerk_ this * dt2 in
      let da := rcppmath.clamp (dv - dv0) da_min da_max in
      v0 + dv0 + da
    else v in
  (ratio tmp v, v).

(** [SpeedLimiter::limit(double &, double, double, double)]
    (lines 125-134). *)
Definition limit (this : SpeedLimiter) (v v0 v1 dt : float) : float * float :=
  let tmp := v in
  let '(_, v) := limit_jerk this v v0 v1 dt in
  let '(_, v) := limit_acceleration this v v0 dt in
  let '(_, v) := limit_velocity this v in
  (ratio tmp v, v).

(** *** The [float] overloads (for four_wheel_steering_msgs) *)

(** [tmp != 0.0 ? v / tmp : 1.0] with [float] [v] and [tmp]: the comparison
    and the conditional expression are of type [double], the quotient of
    type [float], and the value is returned as a [float]. *)
Definition ratio_float (tmp v : spec_float) : spec_float :=
  binary32.of_double
    (if negb (binary32.to_double tmp =? 0)
     then binary32.to_double (binary32.div v tmp)
     else 1).

(** [SpeedLimiter::limit_velocity(float &)] (lines 72-82). *)
Definition limit_velocity_float (this : SpeedLimiter) (v : spec_float)
  : spec_float * spec_float :=
  let tmp := v in
  let v :=
    if has_velocity_limits_ this
    then binary32.clamp v (binary32.of_double (min_velocity_ this))
           (binary32.of_double (max_velocity_ this))
    else v in
  (ratio_float tmp v, v).

(** [SpeedLimiter::limit_acceleration(float &, float, float)]
    (lines 84-99). *)
Definition limit_acceleration_float (this : SpeedLimiter)
  (v v0 dt : spec_float) : spec_float * spec_float :=
  let tmp := v in
  let v :=
    if has_acceleration_limits_ this then
      let dv_min :=
        binary32.of_double (min_acceleration_ this * binary32.to_double dt) in
      let dv_max :=
        binary32.of_double (max_acceleration_ this * binary32.to_double dt) in
      let dv := binary32.clamp (binary32.sub v v0) dv_min dv_max in
      binary32.add v0 dv
    else v in
  (ratio_float tmp v, v).

(** [SpeedLimiter::limit_jerk(float &, float, float, float)]
    (lines 101-121). *)
Definition limit_jerk_float (this : SpeedLimiter)
  (v v0 v1 dt : spec_float) : spec_float * spec_float :=
  let tmp := v in
  let v :=
    if has_jerk_limits_ this then
      let dv := binary32.sub v v0 in
      let dv0 := binary32.sub v0 v1 in
      let dt2 :=
        binary32.of_double
          (2 * binary32.to_double dt * binary32.to_double dt) in
      let da_min :=
        binary32.of_double (min_jerk_ this * binary32.to_double dt2) in
      let da_max :=
        binary32.of_double (max_jerk_ this * binary32.to_double dt2) in
      let da := binary32.clamp (binary32.sub dv dv0) da_min da_max in
      binary32.add (binary32.add v0 dv0) da
    else v in
  (ratio_float tmp v, v).

(** [SpeedLimiter::limit(float &, float, float, float)] (lines 61-70). *)
Definition limit_float (this : SpeedLimiter) (v v0 v1 dt : spec_float)
  : spec_float * spec_float :=
  let tmp := v in
  let '(_, v) := limit_jerk_float this v v0 v1 dt in
  let '(_, v) := limit_acceleration_float this v v0 dt in
  let '(_, v) := limit_velocity_float this v in
  (ratio_float tmp v, v).

End four_steering_controller.

(** ** steering_odometry.cpp *)

Module steering_odometry.

(** Modelled from the spec: the configuration constants are declared in
    steering_odometry.hpp, which is not among the sources; the spec lists the
    four drivetrain variants in this order, and [config_type_] is an
    [unsigned int]. *)
Definition BICYCLE_CONFIG : N := 0.
Definition TRICYCLE_CONFIG : N := 1.
Definition ACKERMANN_CONFIG : N := 2.
Definition FOUR_STEERING_CONFIG : N := 3.

(** The data members of [SteeringOdometry], as the constructor and the
    member functions name them.  [timestamp_] is in nanoseconds. *)
Record SteeringOdometry : Type := {
  timestamp_ : Z;
  x_ : float;
  y_ : float;
  heading_ : float;
  linear_ : float;
  angular_ : float;
  wheel_track_ : float;
  wheelbase_ : float;
  wheel_radius_ : float;
  y_steering_offset_ : float;
  steer_pos_ : float;
  traction_wheel_old_pos_ : float;
  traction_right_wheel_old_pos_ : float;
  traction_left_wheel_old_pos_ : float;
  velocity_rolling_window_size_ : nat;
  config_type_ : N;
  linear_acc_ : rcppmath.RollingMeanAccumulator;
  angular_acc_ : rcppmath.RollingMeanAccumulator
}.

(** Assignments to data members. *)

Definition set_timestamp (this : SteeringOdometry) (t : Z) : SteeringOdometry :=
  {| timestamp_ := t;
     x_ := x_ this; y_ := y_ this; heading_ := heading_ this;
     linear_ := linear_ this; angular_ := angular_ this;
     wheel_track_ := wheel_track_ this; wheelbase_ := wheelbase_ this;
     wheel_radius_ := wheel_radius_ this;
     y_steering_offset_ := y_steering_offset_ this;
     steer_pos_ := steer_pos_ this;
     traction_wheel_old_pos_ := traction_wheel_old_pos_ this;
     traction_right_wheel_old_pos_ := traction_right_wheel_old_pos_ this;
     traction_left_wheel_old_pos_ := traction_left_wheel_old_pos_ this;
     velocity_rolling_window_size_ := velocity_rolling_window_size_ this;
     config_type_ := config_type_ this;
     linear_acc_ := linear_acc_ this; angular_acc_ := angular_acc_ this |}.

Definition set_pose (this : SteeringOdometry) (x y heading : float)
  : SteeringOdometry :=
  {| timestamp_ := timestamp_ this;
     x_ := x; y_ := y; heading_ := heading;
     linear_ := linear_ this; angular_ := angular_ this;
     wheel_track_ := wheel_track_ this; wheelbase_ := wheelbase_ this;
     wheel_radius_ := wheel_radius_ this;
     y_steering_offset_ := y_steering_offset_ this;
     steer_pos_ := steer_pos_ this;
     traction_wheel_old_pos_ := traction_wheel_old_pos_ this;
     traction_right_wheel_old_pos_ := traction_right_wheel_old_pos_ this;
     traction_left_wheel_old_pos_ := traction_left_wheel_old_pos_ this;
     velocity_rolling_window_size_ := velocity_rolling_window_size_ this;
     config_type_ := config_type_ this;
     linear_acc_ := linear_acc_ this; angular_acc_ := angular_acc_ this |}.

Definition set_linear (this : SteeringOdometry) (linear : float)
  : SteeringOdometry :=
  {| timestamp_ := timestamp_ this;
     x_ := x_ this; y_ := y_ this; heading_ := heading_ this;
     linear_ := linear; angular_ := angular_ this;
     wheel_track_ := wheel_track_ this; wheelbase_ := wheelbase_ this;
     wheel_radius_ := wheel_radius_ this;
     y_steering_offset_ := y_steering_offset_ this;
     steer_pos_ := steer_pos_ this;
     traction_wheel_old_pos_ := traction_wheel_old_pos_ this;
     traction_right_wheel_old_pos_ := traction_right_wheel_old_pos_ this;
     traction_left_wheel_old_pos_ := traction_left_wheel_old_pos_ this;
     velocity_rolling_window_size_ := velocity_rolling_window_size_ this;
     config_type_ := config_type_ this;
     linear_acc_ := linear_acc_ this; angular_acc_ := angular_acc_ this |}.

Definition set_angular (this : SteeringOdometry) (angular : float)
  : SteeringOdometry :=
  {| timestamp_ := timestamp_ this;
     x_ := x_ this; y_ := y_ this; heading_ := heading_ this;
     linear_ := linear_ this; angular_ := angular;
     wheel_track_ := wheel_track_ this; wheelbase_ := wheelbase_ this;
     wheel_radius_ := wheel_radius_ this;
     y_steering_offset_ := y_steering_offset_ this;
     steer_pos_ := steer_pos_ this;
     traction_wheel_old_pos_ := traction_wheel_old_pos_ this;
     traction_right_wheel_old_pos_ := traction_right_wheel_old_pos_ this;
     traction_left_wheel_old_pos_ := traction_left_wheel_old_pos_ this;
     velocity_rolling_window_size_ := velocity_rolling_window_size_ this;
     config_type_ := config_type_ this;
     linear_acc_ := linear_acc_ this; angular_acc_ := angular_acc_ this |}.

Definition set_wheel_geometry (this : SteeringOdometry)
  (wheel_radius wheelbase wheel_track y_steering_offset : float)
  : SteeringOdometry :=
  {| timestamp_ := timestamp_ this;
     x_ := x_ this; y_ := y_ this; heading_ := heading_ this;
     linear_ := linear_ this; angular_ := angular_ this;
     wheel_track_ := wheel_track; wheelbase_ := wheelbase;
     wheel_radius_ := wheel_radius;
     y_steering_offset_ := y_steering_offset;
     steer_pos_ := steer_pos_ this;
     traction_wheel_old_pos_ := traction_wheel_old_pos_ this;
     traction_right_wheel_old_pos_ := traction_right_wheel_old_pos_ this;
     traction_left_wheel_old_pos_ := traction_left_wheel_old_pos_ this;
     velocity_rolling_window_size_ := velocity_rolling_window_size_ this;
     config_type_ := config_type_ this;
     linear_acc_ := linear_acc_ this; angular_acc_ := angular_acc_ this |}.

Definition set_steer_pos (this : SteeringOdometry) (steer_pos : float)
  : SteeringOdometry :=
  {| timestamp_ := timestamp_ this;
     x_ := x_ this; y_ := y_ this; heading_ := heading_ this;
     linear_ := linear_ this; angular_ := angular_ this;
     wheel_track_ := wheel_track_ this; wheelbase_ := wheelbase_ this;
     wheel_radius_ := wheel_radius_ this;
     y_steering_offset_ := y_steering_offset_ this;
     steer_pos_ := steer_pos;
     traction_wheel_old_pos_ := traction_wheel_old_pos_ this;
     traction_right_wheel_old_pos_ := traction_right_wheel_old_pos_ this;
     traction_left_wheel_old_pos_ := traction_left_wheel_old_pos_ this;
     velocity_rolling_window_size_ := velocity_rolling_window_size_ this;
     config_type_ := config_type_ this;
     linear_acc_ := linear_acc_ this; angular_acc_ := angular_acc_ this |}.

Definition set_traction_wheel_old_pos (this : SteeringOdometry) (pos : float)
  : SteeringOdometry :=
  {| timestamp_ := timestamp_ this;
     x_ := x_ this; y_ := y_ this; heading_ := heading_ this;
     linear_ := linear_ this; angular_ := angular_ this;
     wheel_track_ := wheel_track_ this; wheelbase_ := wheelbase_ this;
     wheel_radius_ := wheel_radius_ this;
     y_steering_offset_ := y_steering_offset_ this;
     steer_pos_ := steer_pos_ this;
     traction_wheel_old_pos_ := pos;
     traction_right_wheel_old_pos_ := traction_right_wheel_old_pos_ this;
     traction_left_wheel_old_pos_ := traction_left_wheel_old_pos_ this;
     velocity_rolling_window_size_ := velocity_rolling_window_size_ this;
     config_type_ := config_type_ this;
     linear_acc_ := linear_acc_ this; angular_acc_ := angular_acc_ this |}.

Definition set_traction_right_left_old_pos (this : SteeringOdometry)
  (right left : float) : SteeringOdometry :=
  {| timestamp_ := timestamp_ this;
     x_ := x_ this; y_ := y_ this; heading_ := heading_ this;
     linear_ := linear_ this; angular_ := angular_ this;
     wheel_track_ := wheel_track_ this; wheelbase_ := wheelbase_ this;
     wheel_radius_ := wheel_radius_ this;
     y_steering_offset_ := y_steering_offset_ this;
     steer_pos_ := steer_pos_ this;
     traction_wheel_old_pos_ := traction_wheel_old_pos_ this;
     traction_right_wheel_old_pos_ := right;
     traction_left_wheel_old_pos_ := left;
     velocity_rolling_window_size_ := velocity_rolling_window_size_ this;
     config_type_ := config_type_ this;
     linear_acc_ := linear_acc_ this; angular_acc_ := angular_acc_ this |}.

Definition set_window_size (this : SteeringOdometry) (n : nat)
  : SteeringOdometry :=
  {| timestamp_ := timestamp_ this;
     x_ := x_ this; y_ := y_ this; heading_ := heading_ this;
     linear_ := linear_ this; angular_ := angular_ this;
     wheel_track_ := wheel_track_ this; wheelbase_ := wheelbase_ this;
     wheel_radius_ := wheel_radius_ this;
     y_steering_offset_ := y_steering_offset_ this;
     steer_pos_ := steer_pos_ this;
     traction_wheel_old_pos_ := traction_wheel_old_pos_ this;
     traction_right_wheel_old_pos_ := traction_right_wheel_old_pos_ this;
     traction_left_wheel_old_pos_ := traction_left_wheel_old_pos_ this;
     velocity_rolling_window_size_ := n;
     config_type_ := config_type_ this;
     linear_acc_ := linear_acc_ this; angular_acc_ := angular_acc_ this |}.

Definition set_config_type (this : SteeringOdometry) (type : N)
  : SteeringOdometry :=
  {| timestamp_ := timestamp_ this;
     x_ := x_ this; y_ := y_ this; heading_ := heading_ this;
     linear_ := linear_ this; angular_ := angular_ this;
     wheel_track_ := wheel_track_ this; wheelbase_ := wheelbase_ this;
     wheel_radius_ := wheel_radius_ this;
     y_steering_offset_ := y_steering_offset_ this;
     steer_pos_ := steer_pos_ this;
     traction_wheel_old_pos_ := traction_wheel_old_pos_ this;
     traction_right_wheel_old_pos_ := traction_right_wheel_old_pos_ this;
     traction_left_wheel_old_pos_ := traction_left_wheel_old_pos_ this;
     velocity_rolling_window_size_ := velocity_rolling_window_size_ this;
     config_type_ := type;
     linear_acc_ := linear_acc_ this; angular_acc_ := angular_acc_ this |}.

Definition set_accumulators (this : SteeringOdometry)
  (linear_acc angular_acc : rcppmath.RollingMeanAccumulator)
  : SteeringOdometry :=
  {| timestamp_ := timestamp_ this;
     x_ := x_ this; y_ := y_ this; heading_ := heading_ this;
     linear_ := linear_ this; angular_ := angular_ this;
     wheel_track_ := wheel_track_ this; wheelbase_ := wheelbase_ this;
     wheel_radius_ := wheel_radius_ this;
     y_steering_offset_ := y_steering_offset_ this;
     steer_pos_ := steer_pos_ this;
     traction_wheel_old_pos_ := traction_wheel_old_pos_ this;
     traction_right_wheel_old_pos_ := traction_right_wheel_old_pos_ this;
     traction_left_wheel_old_pos_ := traction_left_wheel_old_pos_ this;
     velocity_rolling_window_size_ := velocity_rolling_window_size_ this;
     config_type_ := config_type_ this;
     linear_acc_ := linear_acc; angular_acc_ := angular_acc |}.

(** The pose, for statements about it. *)
Definition pose (this : SteeringOdometry) : float * float * float :=
  (x_ this, y_ this, heading_ this).

Section MemberFunctions.

(** The <cmath> implementation the code is linked with. *)
Variable libm : cmath.t.

Local Abbreviation tan := (cmath.tan libm).
Local Abbreviation cos := (cmath.cos libm).
Local Abbreviation sin := (cmath.sin libm).
Local Abbreviation atan := (cmath.atan libm).
Local Abbreviation atan2 := (cmath.atan2 libm).
Local Abbreviation hypot := (cmath.hypot libm).
Local Abbreviation pow := (cmath.pow libm).
Local Abbreviation copysign := (cmath.copysign libm).
Local Abbreviation fabs := cmath.fabs.
Local Abbreviation sqrt := cmath.sqrt.
Local Abbreviation M_PI_2 := cmath.M_PI_2.

(** [SteeringOdometry::reset_accumulators] (lines 441-445). *)
Definition reset_accumulators (this : SteeringOdometry) : SteeringOdometry :=
  set_accumulators this
    (rcppmath.make (velocity_rolling_window_size_ this))
    (rcppmath.make (velocity_rolling_window_size_ this)).

(** [SteeringOdometry::SteeringOdometry] (lines 29-44).  The members the
    initialiser list leaves out keep whatever value [uninitialised] holds
    for them. *)
Definition make (velocity_rolling_window_size : nat)
  (uninitialised : SteeringOdometry) : SteeringOdometry :=
  {| timestamp_ := 0%Z;
     x_ := 0; y_ := 0; heading_ := 0;
     linear_ := 0; angular_ := 0;
     wheel_track_ := 0; wheelbase_ := 0; wheel_radius_ := 0;
     y_steering_offset_ := y_steering_offset_ uninitialised;
     steer_pos_ := steer_pos_ uninitialised;
     traction_wheel_old_pos_ := 0;
     traction_right_wheel_old_pos_ :=
       traction_right_wheel_old_pos_ uninitialised;
     traction_left_wheel_old_pos_ :=
       traction_left_wheel_old_pos_ uninitialised;
     velocity_rolling_window_size_ := velocity_rolling_window_size;
     config_type_ := config_type_ uninitialised;
     linear_acc_ := rcppmath.make velocity_rolling_window_size;
     angular_acc_ := rcppmath.make velocity_rolling_window_size |}.

(** [SteeringOdometry::init] (lines 46-51). *)
Definition init (this : SteeringOdometry) (time : Z) : SteeringOdometry :=
  let this := reset_accumulators this in
  set_timestamp this time.

(** [SteeringOdometry::integrate_runge_kutta_2] (lines 409-417). *)
Definition integrate_runge_kutta_2 (this : SteeringOdometry)
  (linear angular : float) : SteeringOdometry :=
  let direction := heading_ this + angular * 0.5 in
  let x := x_ this + linear * cos direction in
  let y := y_ this + linear * sin direction in
  let heading := heading_ this + angular in
  set_pose this x y heading.

(** [SteeringOdometry::integrate_exact] (lines 424-439). *)
Definition integrate_exact (this : SteeringOdometry)
  (linear angular : float) : SteeringOdometry :=
  if fabs angular <? 1e-6 then
    integrate_runge_kutta_2 this linear angular
  else
    let heading_old := heading_ this in
    let r := linear / angular in
    let heading := heading_ this + angular in
    let x := x_ this + r * (sin heading - sin heading_old) in
    let y := y_ this + (- r) * (cos heading - cos heading_old) in
    set_pose this x y heading.

(** [SteeringOdometry::update_odometry] (lines 53-73): the returned
    [bool] and the object after the call. *)
Definition update_odometry (this : SteeringOdometry)
  (linear_velocity angular dt : float) : bool * SteeringOdometry :=
  let this := integrate_exact this (linear_velocity * dt) angular in
  if dt <? 0.0001 then (false, this)
  else
    let this :=
      set_accumulators this
        (rcppmath.accumulate (linear_acc_ this) linear_velocity)
        (rcppmath.accumulate (angular_acc_ this) (angular / dt)) in
    let this := set_linear this (rcppmath.getRollingMean (linear_acc_ this)) in
    let this := set_angular this (rcppmath.getRollingMean (angular_acc_ this)) in
    (true, this).

(** [update_from_position], one traction wheel and one steering axis
    (lines 75-91). *)
Definition update_from_position (this : SteeringOdometry)
  (traction_wheel_pos steer_pos dt : float) : bool * SteeringOdometry :=
  let traction_wheel_cur_pos := traction_wheel_pos * wheel_radius_ this in
  let traction_wheel_est_pos_diff :=
    traction_wheel_cur_pos - traction_wheel_old_pos_ this in
  let this := set_traction_wheel_old_pos this traction_wheel_cur_pos in
  let linear_velocity := traction_wheel_est_pos_diff / dt in
  let this := set_steer_pos this steer_pos in
  let angular := tan steer_pos * linear_velocity / wheelbase_ this in
  update_odometry this linear_velocity angular dt.

(** [update_from_position], two traction wheels and one steering axis
    (lines 93-116). *)
Definition update_from_position_2 (this : SteeringOdometry)
  (traction_right_wheel_pos traction_left_wheel_pos steer_pos dt : float)
  : bool * SteeringOdometry :=
  let traction_right_wheel_cur_pos :=
    traction_right_wheel_pos * wheel_radius_ this in
  let traction_left_wheel_cur_pos :=
    traction_left_wheel_pos * wheel_radius_ this in
  let traction_right_wheel_est_pos_diff :=
    traction_right_wheel_cur_pos - traction_right_wheel_old_pos_ this in
  let traction_left_wheel_est_pos_diff :=
    traction_left_wheel_cur_pos - traction_left_wheel_old_pos_ this in
  let this :=
    set_traction_right_left_old_pos this
      traction_right_wheel_cur_pos traction_left_wheel_cur_pos in
  let linear_velocity :=
    (traction_right_wheel_est_pos_diff + traction_left_wheel_est_pos_diff)
    * 0.5 / dt in
  let this := set_steer_pos this steer_pos in
  let angular := tan (steer_pos_ this) * linear_velocity / wheelbase_ this in
  update_odometry this linear_velocity angular dt.

(** [update_from_position], two traction wheels and two steering axes
    (lines 118-142). *)
Definition update_from_position_3 (this : SteeringOdometry)
  (traction_right_wheel_pos traction_left_wheel_pos
     right_steer_pos left_steer_pos dt : float)
  : bool * SteeringOdometry :=
  let traction_right_wheel_cur_pos :=
    traction_right_wheel_pos * wheel_radius_ this in
  let traction_left_wheel_cur_pos :=
    traction_left_wheel_pos * wheel_radius_ this in
  let traction_right_wheel_est_pos_diff :=
    traction_right_wheel_cur_pos - traction_right_wheel_old_pos_ this in
  let traction_left_wheel_est_pos_diff :=
    traction_left_wheel_cur_pos - traction_left_wheel_old_pos_ this in
  let this :=
    set_traction_right_left_old_pos this
      traction_right_wheel_cur_pos traction_left_wheel_cur_pos in
  let linear_velocity :=
    (traction_right_wheel_est_pos_diff + traction_left_wheel_est_pos_diff)
    * 0.5 / dt in
  let this := set_steer_pos this ((right_steer_pos + left_steer_pos) * 0.5) in
  let angular := tan (steer_pos_ this) * linear_velocity / wheelbase_ this in
  update_odometry this linear_velocity angular dt.

(** [SteeringOdometry::update_four_steering] (lines 144-194).  [angular_] is
    the data member: the function assigns it before it calls
    [update_odometry]. *)
Definition update_four_steering (this : SteeringOdometry)
  (fr_speed fl_speed rr_speed rl_speed front_steering rear_steering dt : float)
  : bool * SteeringOdometry :=
  let front_tmp :=
    cos front_steering * (tan front_steering - tan rear_steering)
    / wheelbase_ this in
  let front_left_tmp :=
    front_tmp
    / sqrt (1 - wheel_track_ this * front_tmp * cos front_steering
            + pow (wheel_track_ this * front_tmp / 2) 2) in
  let front_right_tmp :=
    front_tmp
    / sqrt (1 + wheel_track_ this * front_tmp * cos front_steering
            + pow (wheel_track_ this * front_tmp / 2) 2) in
  let fl_speed_tmp :=
    fl_speed * (1 / (1 - y_steering_offset_ this * front_left_tmp)) in
  let fr_speed_tmp :=
    fr_speed * (1 / (1 - y_steering_offset_ this * front_right_tmp)) in
  let front_linear_speed :=
    wheel_radius_ this * copysign 1 (fl_speed_tmp + fr_speed_tmp)
    * sqrt ((pow fl_speed 2 + pow fr_speed 2)
            / (2 + pow (wheel_track_ this * front_tmp) 2 / 2)) in
  let rear_tmp :=
    cos rear_steering * (tan front_steering - tan rear_steering)
    / wheelbase_ this in
  let rear_left_tmp :=
    rear_tmp
    / sqrt (1 - wheel_track_ this * rear_tmp * cos rear_steering
            + pow (wheel_track_ this * rear_tmp / 2) 2) in
  let rear_right_tmp :=
    rear_tmp
    / sqrt (1 + wheel_track_ this * rear_tmp * cos rear_steering
            + pow (wheel_track_ this * rear_tmp / 2) 2) in
  let rl_speed_tmp :=
    rl_speed * (1 / (1 - y_steering_offset_ this * rear_left_tmp)) in
  let rr_speed_tmp :=
    rr_speed * (1 / (1 - y_steering_offset_ this * rear_right_tmp)) in
  let rear_linear_speed :=
    wheel_radius_ this * copysign 1 (rl_speed_tmp + rr_speed_tmp)
    * sqrt ((pow rl_speed_tmp 2 + pow rr_speed_tmp 2)
            / (2 + pow (wheel_track_ this * rear_tmp) 2 / 2)) in
  let this :=
    set_angular this
      ((front_linear_speed * front_tmp + rear_linear_speed * rear_tmp) / 2) in
  let linear_x_ :=
    (front_linear_speed * cos front_steering
     + rear_linear_speed * cos rear_steering) / 2 in
  let linear_y_ :=
    (front_linear_speed * sin front_steering
     - wheelbase_ this * angular_ this / 2
     + rear_linear_speed * sin rear_steering
     + wheelbase_ this * angular_ this / 2) / 2 in
  let linear_velocity :=
    copysign 1 rear_linear_speed
    * sqrt (pow linear_x_ 2 + pow linear_y_ 2) in
  update_odometry this linear_velocity (angular_ this) dt.

(** [update_from_velocity], one traction wheel and one steering axis
    (lines 196-204). *)
Definition update_from_velocity (this : SteeringOdometry)
  (traction_wheel_vel steer_pos dt : float) : bool * SteeringOdometry :=
  let this := set_steer_pos this steer_pos in
  let linear_velocity := traction_wheel_vel * wheel_radius_ this in
  let angular := tan steer_pos * linear_velocity / wheelbase_ this in
  update_odometry this linear_velocity angular dt.

(** [update_from_velocity], two traction wheels and one steering axis
    (lines 206-217). *)
Definition update_from_velocity_2 (this : SteeringOdometry)
  (right_traction_wheel_vel left_traction_wheel_vel steer_pos dt : float)
  : bool * SteeringOdometry :=
  let linear_velocity :=
    (right_traction_wheel_vel + left_traction_wheel_vel)
    * wheel_radius_ this * 0.5 in
  let this := set_steer_pos this steer_pos in
  let angular := tan (steer_pos_ this) * linear_velocity / wheelbase_ this in
  update_odometry this linear_velocity angular dt.

(** [update_from_velocity], two traction wheels and two steering axes
    (lines 219-229). *)
Definition update_from_velocity_3 (this : SteeringOdometry)
  (right_traction_wheel_vel left_traction_wheel_vel
     right_steer_pos left_steer_pos dt : float)
  : bool * SteeringOdometry :=
  let this := set_steer_pos this ((right_steer_pos + left_steer_pos) * 0.5) in
  let linear_velocity :=
    (right_traction_wheel_vel + left_traction_wheel_vel)
    * wheel_radius_ this * 0.5 in
  let angular := steer_pos_ this * linear_velocity / wheelbase_ this in
  update_odometry this linear_velocity angular dt.

(** [SteeringOdometry::update_open_loop] (lines 231-239). *)
Definition update_open_loop (this : SteeringOdometry)
  (linear angular dt : float) : SteeringOdometry :=
  let this := set_linear this linear in
  let this := set_angular this angular in
  integrate_exact this (linear * dt) (angular * dt).

(** [set_wheel_params] with three arguments (lines 241-246). *)
Definition set_wheel_params (this : SteeringOdometry)
  (wheel_radius wheelbase wheel_track : float) : SteeringOdometry :=
  set_wheel_geometry this wheel_radius wheelbase wheel_track
    (y_steering_offset_ this).

(** [set_wheel_params] with four arguments (lines 248-254). *)
Definition set_wheel_params_4 (this : SteeringOdometry)
  (wheel_radius wheelbase wheel_track y_steering_offset : float)
  : SteeringOdometry :=
  set_wheel_geometry this wheel_radius wheelbase wheel_track y_steering_offset.

(** [set_velocity_rolling_window_size] (lines 256-261). *)
Definition set_velocity_rolling_window_size (this : SteeringOdometry)
  (velocity_rolling_window_size : nat) : SteeringOdometry :=
  let this := set_window_size this velocity_rolling_window_size in
  reset_accumulators this.

(** [set_odometry_type] (line 263). *)
Definition set_odometry_type (this : SteeringOdometry) (type : N)
  : SteeringOdometry :=
  set_config_type this type.

(** [reset_odometry] (lines 401-407). *)
Definition reset_odometry (this : SteeringOdometry) : SteeringOdometry :=
  let this := set_pose this 0 0 0 in
  reset_accumulators this.

(** [convert_trans_rot_vel_to_steering_angle] (lines 265-272). *)
Definition convert_trans_rot_vel_to_steering_angle (this : SteeringOdometry)
  (Vx theta_dot : float) : float :=
  if (theta_dot =? 0) || (Vx =? 0) then 0
  else atan (theta_dot * wheelbase_ this / Vx).

(** The first part of [get_commands] (lines 278-297): the locals [Ws] and
    [alpha] once the [if (from_twist)] statement has run.  [Ws] is declared
    without an initialiser; [Ws_indeterminate] is the value the local holds
    where no branch assigns it. *)
Definition get_commands_Ws_alpha (this : SteeringOdometry)
  (Vx angular : float) (from_twist : bool) (Ws_indeterminate : float)
  : float * float :=
  if from_twist then
    if (Vx =? 0) && negb (angular =? 0) then
      let alpha := if 0 <? angular then M_PI_2 else - M_PI_2 in
      let Ws := fabs angular * wheelbase_ this / wheel_radius_ this in
      (Ws, alpha)
    else
      let alpha := convert_trans_rot_vel_to_steering_angle this Vx angular in
      let Ws := Vx / (wheel_radius_ this * cos (steer_pos_ this)) in
      (Ws, alpha)
  else
    let alpha := angular in
    (Ws_indeterminate, alpha).

(** [SteeringOdometry::get_commands] (lines 274-399): the traction commands
    and the steering commands, or the [std::runtime_error] thrown. *)
Definition get_commands (this : SteeringOdometry)
  (Vx angular : float) (from_twist : bool) (Ws_indeterminate : float)
  : result (list float * list float) :=
  let '(Ws, alpha) :=
    get_commands_Ws_alpha this Vx angular from_twist Ws_indeterminate in
  if (config_type_ this =? BICYCLE_CONFIG)%N then
    let traction_commands := [Ws] in
    let steering_commands := [alpha] in
    ret (traction_commands, steering_commands)
  else if (config_type_ this =? TRICYCLE_CONFIG)%N then
    let traction_commands :=
      if fabs (steer_pos_ this) <? 1e-6 then [Ws; Ws]
      else
        let turning_radius := wheelbase_ this / tan (steer_pos_ this) in
        let Wr :=
          Ws * (turning_radius + wheel_track_ this * 0.5) / turning_radius in
        let Wl :=
          Ws * (turning_radius - wheel_track_ this * 0.5) / turning_radius in
        [Wr; Wl] in
    let steering_commands := [alpha] in
    ret (traction_commands, steering_commands)
  else if (config_type_ this =? ACKERMANN_CONFIG)%N then
    if fabs (steer_pos_ this) <? 1e-6 then
      ret ([Ws; Ws], [alpha; alpha])
    else
      let turning_radius := wheelbase_ this / tan (steer_pos_ this) in
      let Wr :=
        Ws * (turning_radius + wheel_track_ this * 0.5) / turning_radius in
      let Wl :=
        Ws * (turning_radius - wheel_track_ this * 0.5) / turning_radius in
      let traction_commands := [Wr; Wl] in
      let numerator := 2 * wheelbase_ this * sin alpha in
      let denominator_first_member := 2 * wheelbase_ this * cos alpha in
      let denominator_second_member := wheel_track_ this * sin alpha in
      let alpha_r :=
        atan2 numerator
          (denominator_first_member - denominator_second_member) in
      let alpha_l :=
        atan2 numerator
          (denominator_first_member + denominator_second_member) in
      let steering_commands := [alpha_r; alpha_l] in
      ret (traction_commands, steering_commands)
  else if (config_type_ this =? FOUR_STEERING_CONFIG)%N then
    let steering_track := wheel_track_ this - 2 * y_steering_offset_ this in
    let vel_steering_offset :=
      (alpha * y_steering_offset_ this) / wheel_radius_ this in
    let sign := copysign 1 Ws in
    let vel_left_front :=
      sign * hypot (Ws - alpha * steering_track / 2)
                   (wheelbase_ this * alpha / 2) / wheel_radius_ this
      - vel_steering_offset in
    let vel_right_front :=
      sign * hypot (Ws + alpha * steering_track / 2)
                   (wheelbase_ this * alpha / 2) / wheel_radius_ this
      + vel_steering_offset in
    let vel_left_rear :=
      sign * hypot (Ws - alpha * steering_track / 2)
                   (wheelbase_ this * alpha / 2) / wheel_radius_ this
      - vel_steering_offset in
    let vel_right_rear :=
      sign * hypot (Ws + alpha * steering_track / 2)
                   (wheelbase_ this * alpha / 2) / wheel_radius_ this
      + vel_steering_offset in
    let traction_commands :=
      [vel_left_front; vel_right_front; vel_left_rear; vel_right_rear] in
    let '(front_left_steering, front_right_steering) :=
      if fabs (alpha * steering_track) <? fabs (2 * Ws) then
        (atan (alpha * wheelbase_ this / (2 * Ws - alpha * steering_track)),
         atan (alpha * wheelbase_ this / (2 * Ws + alpha * steering_track)))
      else if 0.001 <? fabs Ws then
        (copysign M_PI_2 alpha, copysign M_PI_2 alpha)
      else (0, 0) in
    let rear_left_steering := - front_left_steering in
    let rear_right_steering := - front_right_steering in
    let steering_commands :=
      [front_left_steering; front_right_steering;
       rear_left_steering; rear_right_steering] in
    ret (traction_commands, steering_commands)
  else
    throw "Config not implemented".

End MemberFunctions.

End steering_odometry.

(** * The vocabulary of the statements *)

(** ** Classes of binary64 numbers *)

(** The numbers that are neither NaN nor infinite. *)
Definition SFfinite (f : spec_float) : Prop :=
  match f with
  | S754_zero _ | S754_finite _ _ _ => True
  | _ => False
  end.

(** The numbers other than zero: finite and non-zero, or infinite. *)
Definition SFnonzero (f : spec_float) : Prop :=
  match f with
  | S754_finite _ _ _ | S754_infinity _ => True
  | _ => False
  end.

(** A zero of either sign, or NaN. *)
Definition SFzero_or_nan (f : spec_float) : Prop :=
  match f with
  | S754_zero _ | S754_nan => True
  | _ => False
  end.

Definition zero_or_nan (x : float) : Prop := SFzero_or_nan (Prim2SF x).

(** The same value: equal as [==] decides it, or NaN both. *)
Definition same_value (x y : float) : bool :=
  (x =? y) || (is_nan x && is_nan y).

(** Every two elements are the same value. *)
Definition all_same (l : list float) : Prop :=
  forall x y : float, In x l -> In y l -> same_value x y = true.

(** [lo <= x <= hi], as the comparisons of the code decide it. *)
Definition within (lo hi x : float) : bool := (lo <=? x) && (x <=? hi).

(** [lo <= x <= hi] between binary32 numbers. *)
Definition within_float (lo hi x : spec_float) : bool :=
  binary32.leb lo x && binary32.leb x hi.

(** ** Speed limiters *)

Section SpeedLimiterVocabulary.

Import four_steering_controller.

(** The limiter of the examples: every category enabled, bounds -1 and 1. *)
Definition unit_limiter : SpeedLimiter :=
  {| has_velocity_limits_ := true;
     has_acceleration_limits_ := true;
     has_jerk_limits_ := true;
     min_velocity_ := -1; max_velocity_ := 1;
     min_acceleration_ := -1; max_acceleration_ := 1;
     min_jerk_ := -1; max_jerk_ := 1 |}.

(** The same limiter without the jerk category. *)
Definition no_jerk_limiter : SpeedLimiter :=
  {| has_velocity_limits_ := true;
     has_acceleration_limits_ := true;
     has_jerk_limits_ := false;
     min_velocity_ := -1; max_velocity_ := 1;
     min_acceleration_ := -1; max_acceleration_ := 1;
     min_jerk_ := nan; max_jerk_ := nan |}.

(** Whether an enabled category lacks its maximum. *)
Definition max_missing
  (has_velocity_limits has_acceleration_limits has_jerk_limits : bool)
  (max_velocity max_acceleration max_jerk : float) : bool :=
  (has_velocity_limits && cmath.isnan max_velocity)
  || (has_acceleration_limits && cmath.isnan max_acceleration)
  || (has_jerk_limits && cmath.isnan max_jerk).

(** The minimum the constructor stores for a category. *)
Definition stored_min (enabled : bool) (min max : float) : float :=
  if enabled && cmath.isnan min then - max else min.

End SpeedLimiterVocabulary.

(** ** Odometry *)

(** Storage holding zeros, for the members the constructor does not
    initialise. *)
Definition zeroed : steering_odometry.SteeringOdometry :=
  {| steering_odometry.timestamp_ := 0%Z;
     steering_odometry.x_ := 0;
     steering_odometry.y_ := 0;
     steering_odometry.heading_ := 0;
     steering_odometry.linear_ := 0;
     steering_odometry.angular_ := 0;
     steering_odometry.wheel_track_ := 0;
     steering_odometry.wheelbase_ := 0;
     steering_odometry.wheel_radius_ := 0;
     steering_odometry.y_steering_offset_ := 0;
     steering_odometry.steer_pos_ := 0;
     steering_odometry.traction_wheel_old_pos_ := 0;
     steering_odometry.traction_right_wheel_old_pos_ := 0;
     steering_odometry.traction_left_wheel_old_pos_ := 0;
     steering_odometry.velocity_rolling_window_size_ := 0;
     steering_odometry.config_type_ := 0%N;
     steering_odometry.linear_acc_ := rcppmath.make 0;
     steering_odometry.angular_acc_ := rcppmath.make 0 |}.

(** A vehicle to run the code on: constructed with a window of 10 samples,
    then given wheel radius 0.5, wheelbase 1, track 1, no lateral steering
    offset, and the configuration [type]. *)
Definition vehicle (type : N) : steering_odometry.SteeringOdometry :=
  steering_odometry.set_odometry_type
    (steering_odometry.set_wheel_params_4
       (steering_odometry.make 10 zeroed) 0.5 1 1 0)
    type.

(** What the configuration calls set: the wheel geometry, the drivetrain
    configuration and the window size. *)
Definition configuration (this : steering_odometry.SteeringOdometry)
  : float * float * float * float * N * nat :=
  (steering_odometry.wheel_radius_ this,
   steering_odometry.wheelbase_ this,
   steering_odometry.wheel_track_ this,
   steering_odometry.y_steering_offset_ this,
   steering_odometry.config_type_ this,
   steering_odometry.velocity_rolling_window_size_ this).

(** The wheel positions remembered for the next position-based update. *)
Definition old_positions (this : steering_odometry.SteeringOdometry)
  : float * float * float :=
  (steering_odometry.traction_wheel_old_pos_ this,
   steering_odometry.traction_right_wheel_old_pos_ this,
   steering_odometry.traction_left_wheel_old_pos_ this).

Section OdometryVocabulary.

Import steering_odometry.

Variable libm : cmath.t.

(** [r] is what a call of [update_odometry] returns, made with the same [dt]
    on an object that has the pose of [this]. *)
Definition through_update_odometry (this : SteeringOdometry) (dt : float)
  (r : bool * SteeringOdometry) : Prop :=
  exists (this' : SteeringOdometry) (linear_velocity angular : float),
    pose this' = pose this
    /\ r = update_odometry libm this' linear_velocity angular dt.

(** What C1 says of one call: it returns [false], it leaves the pose
    [integrate_exact] computes from the pose it found, and it leaves
    [linear_] and [angular_] as they were. *)
Definition small_dt_contract (this : SteeringOdometry) (dt : float)
  (r : bool * SteeringOdometry) : Prop :=
  fst r = false
  /\ (exists linear_velocity angular : float,
        pose (snd r)
        = pose (integrate_exact libm this (linear_velocity * dt) angular))
  /\ linear_ (snd r) = linear_ this
  /\ angular_ (snd r) = angular_ this.

End OdometryVocabulary.

(** * Facts about binary64 numbers

    The comparison and arithmetic facts the proofs below need, read off the
    IEEE 754 specification of the primitive operations ([SpecFloat]). *)

Lemma SFcompare_refl (f : spec_float) :
  f <> S754_nan -> SFcompare f f = Some Eq.
Proof.
  destruct f as [s|s| |s m e]; try congruence; intros _; cbn.
  - reflexivity.
  - destruct s; reflexivity.
  - rewrite Z.compare_refl, Pos.compare_cont_refl. destruct s; reflexivity.
Qed.

Lemma SFcompare_antisym (f g : spec_float) :
  SFcompare g f = option_map CompOpp (SFcompare f g).
Proof.
  destruct f as [s|s| |s m e], g as [s'|s'| |s' m' e']; cbn;
    try reflexivity; try (destruct s; reflexivity); try (destruct s'; reflexivity);
    try (destruct s, s'; reflexivity).
  assert (Hm : Pos.compare_cont Eq m' m = CompOpp (Pos.compare_cont Eq m m')).
  { symmetry. apply (Pos.compare_cont_antisym m m' Eq). }
  rewrite (Z.compare_antisym e e'), Hm.
  destruct s, s'; cbn; try reflexivity;
    destruct (e ?= e')%Z; cbn; reflexivity.
Qed.

Lemma SFcompare_None (f g : spec_float) :
  SFcompare f g = None <-> f = S754_nan \/ g = S754_nan.
Proof.
  destruct f as [s|s| |s m e], g as [s'|s'| |s' m' e']; cbn;
    split; intros H; try discriminate; auto;
    destruct H; discriminate.
Qed.

Lemma is_nan_Prim2SF (x : float) :
  is_nan x = true <-> Prim2SF x = S754_nan.
Proof.
  unfold is_nan. rewrite FloatAxioms.eqb_spec. unfold SFeqb.
  destruct (Prim2SF x) eqn:E.
  1,2,4: rewrite SFcompare_refl by congruence; cbn; split; congruence.
  cbn. split; reflexivity.
Qed.

Lemma not_nan_Prim2SF (x : float) :
  is_nan x = false <-> Prim2SF x <> S754_nan.
Proof.
  rewrite <- is_nan_Prim2SF. destruct (is_nan x); split; congruence.
Qed.

(** [x <= y] holds only between numbers. *)
Lemma leb_not_nan (x y : float) :
  (x <=? y) = true -> is_nan x = false /\ is_nan y = false.
Proof.
  rewrite FloatAxioms.leb_spec, !not_nan_Prim2SF. unfold SFleb.
  destruct (SFcompare (Prim2SF x) (Prim2SF y)) eqn:E; [|discriminate].
  intros _. split; intros N; rewrite N in E;
    [| destruct (Prim2SF x)]; discriminate.
Qed.

Lemma ltb_not_nan (x y : float) :
  (x <? y) = true -> is_nan x = false /\ is_nan y = false.
Proof.
  rewrite FloatAxioms.ltb_spec, !not_nan_Prim2SF. unfold SFltb.
  destruct (SFcompare (Prim2SF x) (Prim2SF y)) eqn:E; [|discriminate].
  intros _. split; intros N; rewrite N in E;
    [| destruct (Prim2SF x)]; discriminate.
Qed.

Lemma leb_refl (x : float) : is_nan x = false -> (x <=? x) = true.
Proof.
  rewrite not_nan_Prim2SF, FloatAxioms.leb_spec. intros H. unfold SFleb.
  now rewrite SFcompare_refl.
Qed.

(** Between numbers, [!(x < y)] is [y <= x]. *)
Lemma ltb_false_leb (x y : float) :
  is_nan x = false -> is_nan y = false -> (x <? y) = false -> (y <=? x) = true.
Proof.
  rewrite !not_nan_Prim2SF, FloatAxioms.ltb_spec, FloatAxioms.leb_spec. unfold SFltb, SFleb.
  intros Hx Hy. rewrite (SFcompare_antisym (Prim2SF x) (Prim2SF y)).
  destruct (SFcompare (Prim2SF x) (Prim2SF y)) as [[]|] eqn:E; cbn;
    try congruence.
  apply SFcompare_None in E. tauto.
Qed.

(** What [rcppmath::clamp] guarantees: a number stays a number and ends
    between the bounds. *)
Lemma clamp_within (v lo hi : float) :
  (lo <=? hi) = true -> is_nan v = false ->
  (lo <=? rcppmath.clamp v lo hi) && (rcppmath.clamp v lo hi <=? hi) = true.
Proof.
  intros Hb Hv. destruct (leb_not_nan _ _ Hb) as [Hlo Hhi].
  unfold rcppmath.clamp.
  destruct (v <? lo) eqn:E1.
  - now rewrite leb_refl, Hb.
  - destruct (hi <? v) eqn:E2.
    + now rewrite Hb, leb_refl.
    + now rewrite (ltb_false_leb v lo), (ltb_false_leb hi v).
Qed.

(** A NaN passes through [rcppmath::clamp]. *)
Lemma clamp_nan (lo hi : float) : rcppmath.clamp nan lo hi = nan.
Proof.
  unfold rcppmath.clamp.
  destruct (nan <? lo) eqn:E1.
  - apply ltb_not_nan in E1. now destruct E1.
  - destruct (hi <? nan) eqn:E2; [|reflexivity].
    apply ltb_not_nan in E2. now destruct E2.
Qed.

(** ** Sums and differences that cannot be NaN *)

Lemma iter_pos_invariant {A : Type} (P : A -> Prop) (f : A -> A) :
  (forall x, P x -> P (f x)) -> forall n x, P x -> P (SpecFloat.iter_pos f n x).
Proof. intros Hf. induction n as [n IH|n IH|]; cbn; auto. Qed.

Lemma shr_1_nonneg (r : shr_record) :
  (0 <= shr_m r)%Z -> (0 <= shr_m (shr_1 r))%Z.
Proof. destruct r as [[|[p|p|]|p] r s]; cbn; lia. Qed.

Lemma shr_fexp_nonneg (m e : Z) (l : location) :
  (0 <= m)%Z -> (0 <= shr_m (fst (shr_fexp prec emax m e l)))%Z.
Proof.
  intros Hm. unfold shr_fexp, shr.
  assert (H0 : (0 <= shr_m (shr_record_of_loc m l))%Z)
    by (destruct l as [|[]]; exact Hm).
  destruct (fexp prec emax (Zdigits2 m + e) - e)%Z; cbn [fst]; auto.
  now apply (iter_pos_invariant (fun r => (0 <= shr_m r)%Z) shr_1 shr_1_nonneg).
Qed.

Lemma round_nearest_even_nonneg (m : Z) (l : location) :
  (0 <= m)%Z -> (0 <= round_nearest_even m l)%Z.
Proof.
  intros Hm. destruct l as [|[]]; cbn; try lia.
  destruct (Z.even m); lia.
Qed.

(** Rounding a non-negative mantissa gives a zero, a finite number or an
    infinity. *)
Lemma binary_round_aux_not_nan (sx : bool) (mx ex : Z) (lx : location) :
  (0 <= mx)%Z -> binary_round_aux prec emax sx mx ex lx <> S754_nan.
Proof.
  intros Hm. unfold binary_round_aux.
  pose proof (shr_fexp_nonneg mx ex lx Hm) as H1.
  destruct (shr_fexp prec emax mx ex lx) as [mrs' e']. cbn [fst] in H1.
  pose proof (shr_fexp_nonneg _ e' loc_Exact
                (round_nearest_even_nonneg _ (loc_of_shr_record mrs') H1)) as H2.
  destruct (shr_fexp prec emax _ e' loc_Exact) as [mrs'' e'']. cbn [fst] in H2.
  destruct (shr_m mrs''); try discriminate; [|lia].
  destruct (e'' <=? emax - prec)%Z; discriminate.
Qed.

Lemma binary_normalize_not_nan (m e : Z) (szero : bool) :
  binary_normalize prec emax m e szero <> S754_nan.
Proof.
  destruct m; cbn; try discriminate; unfold binary_round;
    destruct (shl_align _ _ _); now apply binary_round_aux_not_nan.
Qed.

Lemma SF64add_not_nan (f g : spec_float) :
  SFfinite f -> g <> S754_nan -> SF64add f g <> S754_nan.
Proof.
  destruct f as [s|s| |s m e], g as [s'|s'| |s' m' e']; cbn;
    try tauto; try discriminate; intros _ _.
  - destruct s, s'; discriminate.
  - apply binary_normalize_not_nan.
Qed.

Lemma SF64sub_not_nan (f g : spec_float) :
  f <> S754_nan -> SFfinite g -> SF64sub f g <> S754_nan.
Proof.
  destruct f as [s|s| |s m e], g as [s'|s'| |s' m' e']; cbn;
    try tauto; try discriminate; intros _ _.
  - destruct s, s'; discriminate.
  - apply binary_normalize_not_nan.
Qed.

Lemma is_finite_Prim2SF (x : float) :
  is_finite x = true <-> SFfinite (Prim2SF x).
Proof.
  unfold is_finite, is_infinity.
  rewrite FloatAxioms.eqb_spec, FloatAxioms.abs_spec.
  destruct (is_nan x) eqn:N.
  - apply is_nan_Prim2SF in N. rewrite N. cbn. split; [discriminate|tauto].
  - apply not_nan_Prim2SF in N.
    destruct (Prim2SF x) as [s|s| |s m e]; cbn; try tauto;
      split; try discriminate; tauto.
Qed.

Lemma add_not_nan (x y : float) :
  is_finite x = true -> is_nan y = false -> is_nan (x + y) = false.
Proof.
  rewrite is_finite_Prim2SF, !not_nan_Prim2SF, FloatAxioms.add_spec.
  apply SF64add_not_nan.
Qed.

Lemma sub_not_nan (x y : float) :
  is_nan x = false -> is_finite y = true -> is_nan (x - y) = false.
Proof.
  rewrite is_finite_Prim2SF, !not_nan_Prim2SF, FloatAxioms.sub_spec.
  apply SF64sub_not_nan.
Qed.

Lemma clamp_not_nan (v lo hi : float) :
  is_nan v = false -> is_nan (rcppmath.clamp v lo hi) = false.
Proof.
  intros Hv. unfold rcppmath.clamp.
  destruct (v <? lo) eqn:E1; [apply (ltb_not_nan _ _ E1)|].
  destruct (hi <? v) eqn:E2; [apply (ltb_not_nan _ _ E2)|exact Hv].
Qed.

(** A multiple of zero is a zero or NaN, and so is half the sum of two. *)
Lemma half_sum_of_zero_multiples (a b : float) :
  ((a * 0 + b * 0) / 2 =? 0.5) = false.
Proof.
  rewrite FloatAxioms.eqb_spec, FloatAxioms.div_spec, FloatAxioms.add_spec,
    !FloatAxioms.mul_spec.
  change (Prim2SF 0) with (S754_zero false).
  change (Prim2SF 2) with (S754_finite false 4503599627370496 (-51)).
  change (Prim2SF 0.5) with (S754_finite false 4503599627370496 (-53)).
  destruct (Prim2SF a) as [[]|[]| |[] m e], (Prim2SF b) as [[]|[]| |[] m' e'];
    reflexivity.
Qed.

(** ** Zeros *)

Lemma is_zero_Prim2SF (x : float) :
  PrimFloat.is_zero x = true <-> exists s, Prim2SF x = S754_zero s.
Proof.
  unfold PrimFloat.is_zero. rewrite FloatAxioms.eqb_spec.
  change (Prim2SF zero) with (S754_zero false).
  destruct (Prim2SF x) as [s|[]| |[] m e]; cbn; split;
    try discriminate; try (intros [s' H]; discriminate H); eauto.
Qed.

(** [==] sees two zeros, [+0.0] and [-0.0]. *)
Lemma is_zero_cases (x : float) : PrimFloat.is_zero x = true -> x = 0 \/ x = - 0.
Proof.
  intros H. apply is_zero_Prim2SF in H. destruct H as [s H].
  rewrite <- (SF2Prim_Prim2SF x), H. destruct s; [right|left]; reflexivity.
Qed.

Lemma is_zero_opp (x : float) : PrimFloat.is_zero x = true -> PrimFloat.is_zero (- x) = true.
Proof.
  intros H. destruct (is_zero_cases x H) as [-> | ->]; reflexivity.
Qed.

(** [0 * y] is a zero when [y] is finite, and a zero or NaN in general. *)
Lemma zero_mul_finite (y : float) :
  is_finite y = true -> PrimFloat.is_zero (0 * y) = true.
Proof.
  rewrite is_finite_Prim2SF, is_zero_Prim2SF, FloatAxioms.mul_spec.
  change (Prim2SF 0) with (S754_zero false).
  destruct (Prim2SF y); cbn; try tauto; eauto.
Qed.

Lemma zero_mul_zero_or_nan (y : float) : zero_or_nan (0 * y).
Proof.
  unfold zero_or_nan. rewrite FloatAxioms.mul_spec.
  change (Prim2SF 0) with (S754_zero false).
  now destruct (Prim2SF y).
Qed.

Lemma zero_or_nan_div (z r : float) : zero_or_nan z -> zero_or_nan (z / r).
Proof.
  unfold zero_or_nan. rewrite FloatAxioms.div_spec.
  destruct (Prim2SF z), (Prim2SF r); cbn; tauto.
Qed.

(** A zero divided by a number further from zero than some zero is a zero,
    whichever zero is first taken from or added to the divisor. *)
Lemma zero_div_shifted (z z' w : float) :
  PrimFloat.is_zero z = true -> PrimFloat.is_zero z' = true ->
  (PrimFloat.abs z' <? PrimFloat.abs w) = true ->
  PrimFloat.is_zero (z / (w - z')) = true /\ PrimFloat.is_zero (z / (w + z')) = true.
Proof.
  rewrite !is_zero_Prim2SF, FloatAxioms.ltb_spec, !FloatAxioms.abs_spec,
    !FloatAxioms.div_spec, FloatAxioms.sub_spec, FloatAxioms.add_spec.
  intros [s ->] [s' ->].
  destruct (Prim2SF w) as [t|t| |t m e]; cbn; try discriminate;
    intros _; split; eauto.
Qed.

(** Adding and subtracting a zero or NaN [a] give the same value, unless both
    give a zero. *)
Lemma sub_add_zero_or_nan (w a : float) :
  zero_or_nan a ->
  w - a = w + a \/ (PrimFloat.is_zero (w - a) = true /\ PrimFloat.is_zero (w + a) = true).
Proof.
  unfold zero_or_nan. intros H.
  destruct (Prim2SF a) as [s| | |] eqn:Ea; try contradiction.
  - destruct (Prim2SF w) as [t|t| |t m e] eqn:Ew.
    + right. rewrite !is_zero_Prim2SF, FloatAxioms.sub_spec,
        FloatAxioms.add_spec, Ea, Ew.
      destruct s, t; cbn; eauto.
    + left. apply Prim2SF_inj.
      now rewrite FloatAxioms.sub_spec, FloatAxioms.add_spec, Ea, Ew.
    + left. apply Prim2SF_inj.
      now rewrite FloatAxioms.sub_spec, FloatAxioms.add_spec, Ea, Ew.
    + left. apply Prim2SF_inj.
      now rewrite FloatAxioms.sub_spec, FloatAxioms.add_spec, Ea, Ew.
  - left. apply Prim2SF_inj.
    rewrite FloatAxioms.sub_spec, FloatAxioms.add_spec, Ea.
    now destruct (Prim2SF w).
Qed.

Lemma same_value_refl (x : float) : same_value x x = true.
Proof.
  unfold same_value, is_nan. now destruct (x =? x).
Qed.

Lemma same_value_sym (x y : float) : same_value x y = same_value y x.
Proof.
  unfold same_value. rewrite (andb_comm (is_nan x)). f_equal.
  rewrite !FloatAxioms.eqb_spec. unfold SFeqb.
  rewrite (SFcompare_antisym (Prim2SF x) (Prim2SF y)).
  now destruct (SFcompare (Prim2SF x) (Prim2SF y)) as [[]|].
Qed.

(** Taking a zero or NaN from a value, or adding it, gives the same value. *)
Lemma same_value_sub_add (p a : float) :
  zero_or_nan a -> same_value (p - a) (p + a) = true.
Proof.
  intros H. destruct (sub_add_zero_or_nan p a H) as [E | [E1 E2]].
  - rewrite E. apply same_value_refl.
  - unfold same_value.
    destruct (is_zero_cases _ E1) as [-> | ->],
      (is_zero_cases _ E2) as [-> | ->]; reflexivity.
Qed.

(** ** Doubling *)

Lemma digits2_pos_shift (m : positive) :
  Zpos (digits2_pos (Pos.iter xO m 52)) = (Zpos (digits2_pos m) + 52)%Z.
Proof. cbn. lia. Qed.

(** Twice a finite non-zero binary64 number is not zero: the product is exact
    or overflows. *)
Lemma SF64mul_two_nonzero (s : bool) (m : positive) (e : Z) :
  valid_binary (S754_finite s m e) = true ->
  SFnonzero (SF64mul (S754_finite false 4503599627370496 (-51))
               (S754_finite s m e)).
Proof.
  cbn [valid_binary]. unfold bounded, canonical_mantissa, fexp, emin.
  fold prec. fold emax.
  intros H. apply andb_prop in H. destruct H as [Hc He].
  apply Z.eqb_eq in Hc. apply Z.leb_le in He.
  unfold SF64mul, SFmul, binary_round_aux, shr_fexp, fexp, emin.
  change (Pos.mul 4503599627370496 m) with (Pos.iter xO m 52).
  cbn [Zdigits2]. rewrite digits2_pos_shift.
  set (d := Zpos (digits2_pos m)) in *.
  assert (Hd : (0 < d)%Z) by (subst d; lia).
  destruct (Z.eq_dec d 53) as [D|D].
  - replace (Z.max (d + 52 + (-51 + e) - prec) (3 - emax - prec) - (-51 + e))%Z
      with 52%Z by (unfold prec, emax in *; lia).
    cbn [shr shr_record_of_loc SpecFloat.iter_pos shr_1 Pos.iter shr_m
           loc_of_shr_record round_nearest_even Zdigits2 orb].
    replace (Z.max (Z.pos (digits2_pos m) + (-51 + e + 52) - prec)
               (3 - emax - prec) - (-51 + e + 52))%Z
      with 0%Z by (fold d; unfold prec, emax in *; lia).
    cbn [shr shr_m].
    now destruct (-51 + e + 52 <=? emax - prec)%Z.
  - replace (Z.max (d + 52 + (-51 + e) - prec) (3 - emax - prec) - (-51 + e))%Z
      with 51%Z by (unfold prec, emax in *; lia).
    cbn [shr shr_record_of_loc SpecFloat.iter_pos shr_1 Pos.iter shr_m
           loc_of_shr_record round_nearest_even Zdigits2 orb digits2_pos].
    replace (Z.max (Z.pos (Pos.succ (digits2_pos m)) + (-51 + e + 51) - prec)
               (3 - emax - prec) - (-51 + e + 51))%Z
      with 0%Z by (unfold prec, emax in *; lia).
    cbn [shr shr_m].
    now destruct (-51 + e + 51 <=? emax - prec)%Z.
Qed.

(** If [|w| > 0.001] then [|2 w|] exceeds the magnitude of a zero. *)
Lemma doubling_exceeds_zero (z w : float) :
  PrimFloat.is_zero z = true ->
  (0.001 <? PrimFloat.abs w) = true ->
  (PrimFloat.abs z <? PrimFloat.abs (2 * w)) = true.
Proof.
  rewrite is_zero_Prim2SF, !FloatAxioms.ltb_spec, !FloatAxioms.abs_spec,
    FloatAxioms.mul_spec.
  intros [s ->]. pose proof (Prim2SF_valid w) as V.
  let c := eval vm_compute in (Prim2SF 0.001) in
    change (Prim2SF 0.001) with c.
  change (Prim2SF 2) with (S754_finite false 4503599627370496 (-51)).
  destruct (Prim2SF w) as [t|t| |t m e]; cbn [SFabs]; try discriminate.
  - reflexivity.
  - intros _. pose proof (SF64mul_two_nonzero t m e V) as N.
    destruct (SF64mul _ _); cbn in N |- *; try contradiction; reflexivity.
Qed.

(** * The speed limiter *)

Section SpeedLimiterFacts.

Import four_steering_controller.

Example unit_limiter_constructed :
  make true true true nan 1 nan 1 nan 1 = inr unit_limiter.
Proof. reflexivity. Qed.

Example limit_velocity_above :
  limit_velocity unit_limiter 5 = (0.2, 1).
Proof. reflexivity. Qed.

Example limit_velocity_below :
  snd (limit_velocity unit_limiter (-5)) = -1.
Proof. reflexivity. Qed.

Example limit_acceleration_step :
  snd (limit_acceleration unit_limiter 1 0 0.1) = 0.1.
Proof. reflexivity. Qed.

Example limit_jerk_step :
  snd (limit_jerk unit_limiter 1 0 0 0.1) = 2 * 0.1 * 0.1.
Proof. reflexivity. Qed.

Example make_without_max_acceleration :
  make false true false 0 0 (-1) nan 0 0
  = throw "Cannot apply acceleration limits if max_acceleration is not specified".
Proof. reflexivity. Qed.

(** The value every stage returns: 1 for an original value equal to zero,
    the quotient otherwise. *)
Lemma ratio_spec (tmp v : float) :
  ratio tmp v = if tmp =? 0 then 1 else v / tmp.
Proof. unfold ratio. now destruct (tmp =? 0). Qed.

(** C7.  [limit] runs the jerk stage, then the acceleration stage, then the
    velocity stage, each on the value the stage before left in [v].  An
    enabled jerk stage leaves [v0 + (v0 - v1) + clamp((v - v0) - (v0 - v1),
    min_jerk * 2dt^2, max_jerk * 2dt^2)], an enabled acceleration stage
    [v0 + clamp(v - v0, min_accel * dt, max_accel * dt)], an enabled velocity
    stage [clamp(v, min_velocity, max_velocity)]; a disabled stage leaves [v]
    as it is.  Each stage, and [limit], returns the value it leaves divided by
    the value it received, or 1 when the value it received equals zero. *)
Theorem limit_is_jerk_then_acceleration_then_velocity
  (this : SpeedLimiter) (v v0 v1 dt : float) :
  let vj :=
    if has_jerk_limits_ this
    then v0 + (v0 - v1)
         + rcppmath.clamp ((v - v0) - (v0 - v1))
             (min_jerk_ this * (2 * dt * dt)) (max_jerk_ this * (2 * dt * dt))
    else v in
  let va :=
    if has_acceleration_limits_ this
    then v0 + rcppmath.clamp (vj - v0)
                (min_acceleration_ this * dt) (max_acceleration_ this * dt)
    else vj in
  let vv :=
    if has_velocity_limits_ this
    then rcppmath.clamp va (min_velocity_ this) (max_velocity_ this)
    else va in
  let returned (original final : float) :=
    if original =? 0 then 1 else final / original in
  limit_jerk this v v0 v1 dt = (returned v vj, vj)
  /\ limit_acceleration this vj v0 dt = (returned vj va, va)
  /\ limit_velocity this va = (returned va vv, vv)
  /\ limit this v v0 v1 dt = (returned v vv, vv).
Proof.
  cbv zeta. unfold limit, limit_jerk, limit_acceleration, limit_velocity.
  destruct (has_jerk_limits_ this), (has_acceleration_limits_ this),
    (has_velocity_limits_ this); cbv zeta beta iota;
    repeat split; f_equal; apply ratio_spec.
Qed.

(** C8.  The constructor throws whenever an enabled category has a NaN
    maximum.  Otherwise it returns the limiter whose flags and maxima are the
    arguments and whose minimum, in every enabled category given a NaN
    minimum, is the negated maximum (any other minimum is stored as given). *)
Theorem make_checks_the_maxima
  (has_velocity_limits has_acceleration_limits has_jerk_limits : bool)
  (min_velocity max_velocity min_acceleration max_acceleration
     min_jerk max_jerk : float) :
  (max_missing has_velocity_limits has_acceleration_limits has_jerk_limits
     max_velocity max_acceleration max_jerk = true ->
   exists what,
     make has_velocity_limits has_acceleration_limits has_jerk_limits
       min_velocity max_velocity min_acceleration max_acceleration
       min_jerk max_jerk = inl (RuntimeError what))
  /\ (max_missing has_velocity_limits has_acceleration_limits has_jerk_limits
        max_velocity max_acceleration max_jerk = false ->
      make has_velocity_limits has_acceleration_limits has_jerk_limits
        min_velocity max_velocity min_acceleration max_acceleration
        min_jerk max_jerk
      = inr {| has_velocity_limits_ := has_velocity_limits;
               has_acceleration_limits_ := has_acceleration_limits;
               has_jerk_limits_ := has_jerk_limits;
               min_velocity_ :=
                 stored_min has_velocity_limits min_velocity max_velocity;
               max_velocity_ := max_velocity;
               min_acceleration_ :=
                 stored_min has_acceleration_limits
                   min_acceleration max_acceleration;
               max_acceleration_ := max_acceleration;
               min_jerk_ := stored_min has_jerk_limits min_jerk max_jerk;
               max_jerk_ := max_jerk |}).
Proof.
  unfold max_missing, stored_min, make, cmath.isnan.
  destruct has_velocity_limits, has_acceleration_limits, has_jerk_limits;
    repeat (cbn -[is_nan];
            match goal with
            | E : is_nan ?x = _ |- context [is_nan ?x] => rewrite E
            | |- context [is_nan ?x] => destruct (is_nan x) eqn:?
            end);
    cbn; split; intros H; try discriminate H;
    try (eexists; reflexivity); reflexivity.
Qed.

Lemma make_checks_the_maxima_witness :
  (exists what,
     make true true false (-1) 1 (-1) nan 0 0 = inl (RuntimeError what))
  /\ make true true false nan 1 (-2) 3 nan nan
     = inr {| has_velocity_limits_ := true;
              has_acceleration_limits_ := true;
              has_jerk_limits_ := false;
              min_velocity_ := -1; max_velocity_ := 1;
              min_acceleration_ := -2; max_acceleration_ := 3;
              min_jerk_ := nan; max_jerk_ := nan |}.
Proof.
  split.
  - apply (proj1 (make_checks_the_maxima true true false
                    (-1) 1 (-1) nan 0 0)).
    reflexivity.
  - apply (proj2 (make_checks_the_maxima true true false
                    nan 1 (-2) 3 nan nan)).
    reflexivity.
Defined.

(** The jerk stage can produce a NaN from finite values: [v0 - v1] overflows
    to +infinity, the lower jerk bound [min_jerk * 2dt^2] overflows to
    -infinity, and their sum is NaN.  No later stage removes it. *)
Example limit_overflow_gives_nan :
  limit unit_limiter (-1e308) 1e308 (-1e308) 1e200 = (nan, nan).
Proof. reflexivity. Qed.

(** C10 as stated does not hold: with the velocity limits -1 and 1 and the
    finite inputs [v = -1e308], [v0 = 1e308], [v1 = -1e308], [dt = 1e200],
    [limit] writes back a NaN, which is not between the limits. *)
Lemma limit_not_always_within_velocity_limits :
  ~ (forall (this : SpeedLimiter) (v v0 v1 dt : float),
        has_velocity_limits_ this = true ->
        (min_velocity_ this <=? max_velocity_ this) = true ->
        is_finite v = true -> is_finite v0 = true -> is_finite v1 = true ->
        within (min_velocity_ this) (max_velocity_ this)
          (snd (limit this v v0 v1 dt)) = true).
Proof.
  intros H.
  specialize (H unit_limiter (-1e308) 1e308 (-1e308) 1e200
                eq_refl eq_refl eq_refl eq_refl eq_refl).
  rewrite limit_overflow_gives_nan in H. discriminate H.
Qed.

(** The acceleration stage keeps a number a number when [v0] is finite. *)
Lemma limit_acceleration_not_nan (this : SpeedLimiter) (v v0 dt : float) :
  is_nan v = false -> is_finite v0 = true ->
  is_nan (snd (limit_acceleration this v v0 dt)) = false.
Proof.
  intros Hv Hv0. unfold limit_acceleration. cbn [snd].
  destruct (has_acceleration_limits_ this); [|exact Hv].
  apply add_not_nan; [exact Hv0|].
  apply clamp_not_nan, sub_not_nan; assumption.
Qed.

(** The velocity stage puts every number between the velocity limits. *)
Lemma limit_velocity_within (this : SpeedLimiter) (v : float) :
  has_velocity_limits_ this = true ->
  (min_velocity_ this <=? max_velocity_ this) = true ->
  is_nan v = false ->
  within (min_velocity_ this) (max_velocity_ this)
    (snd (limit_velocity this v)) = true.
Proof.
  intros Hhas Hb Hv. unfold limit_velocity, within. cbn [snd].
  rewrite Hhas. now apply clamp_within.
Qed.

(** What [limit] leaves in [v] is what the three stages leave in turn. *)
Lemma limit_snd (this : SpeedLimiter) (v v0 v1 dt : float) :
  snd (limit this v v0 v1 dt)
  = snd (limit_velocity this
           (snd (limit_acceleration this
                   (snd (limit_jerk this v v0 v1 dt)) v0 dt))).
Proof.
  unfold limit.
  destruct (limit_jerk this v v0 v1 dt) as [rj vj]. cbn [snd].
  destruct (limit_acceleration this vj v0 dt) as [ra va]. cbn [snd].
  now destruct (limit_velocity this va).
Qed.

(** C10, amended.  With velocity limits enabled and
    [min_velocity <= max_velocity], the value [limit] writes back lies between
    the two limits for every finite [v0] and every [v], [v1] and [dt] for which
    the jerk stage does not leave a NaN, whichever other stages are enabled. *)
Theorem limit_within_velocity_limits
  (this : SpeedLimiter) (v v0 v1 dt : float) :
  has_velocity_limits_ this = true ->
  (min_velocity_ this <=? max_velocity_ this) = true ->
  is_finite v0 = true ->
  is_nan (snd (limit_jerk this v v0 v1 dt)) = false ->
  within (min_velocity_ this) (max_velocity_ this)
    (snd (limit this v v0 v1 dt)) = true.
Proof.
  intros Hhas Hb Hv0 Hj. rewrite limit_snd.
  apply limit_velocity_within; try assumption.
  now apply limit_acceleration_not_nan.
Qed.

Lemma limit_within_velocity_limits_witness :
  within (-1) 1 (snd (limit unit_limiter 5 0.5 0.25 0.1)) = true.
Proof.
  apply (limit_within_velocity_limits unit_limiter 5 0.5 0.25 0.1);
    reflexivity.
Defined.

(** With the jerk stage disabled, every number [v] and every finite [v0] do:
    the jerk stage leaves [v]. *)
Lemma limit_within_velocity_limits_without_jerk
  (this : SpeedLimiter) (v v0 v1 dt : float) :
  has_velocity_limits_ this = true ->
  (min_velocity_ this <=? max_velocity_ this) = true ->
  has_jerk_limits_ this = false ->
  is_nan v = false -> is_finite v0 = true ->
  within (min_velocity_ this) (max_velocity_ this)
    (snd (limit this v v0 v1 dt)) = true.
Proof.
  intros Hhas Hb Hj Hv Hv0. rewrite limit_snd.
  apply limit_velocity_within; try assumption.
  apply limit_acceleration_not_nan; [|assumption].
  unfold limit_jerk. now rewrite Hj.
Qed.

End SpeedLimiterFacts.

(** * The odometry *)

Section OdometryFacts.

Import steering_odometry.

Variable libm : cmath.t.

Local Abbreviation tan := (cmath.tan libm).
Local Abbreviation cos := (cmath.cos libm).
Local Abbreviation sin := (cmath.sin libm).
Local Abbreviation atan := (cmath.atan libm).
Local Abbreviation hypot := (cmath.hypot libm).
Local Abbreviation copysign := (cmath.copysign libm).

(** ** Pose integration *)

(** C4.  [integrate_exact] changes the pose only.  When [|angular| < 1e-6]
    the new pose is the second-order Runge-Kutta one: [x + linear *
    cos(heading + angular/2)], [y + linear * sin(heading + angular/2)],
    [heading + angular].  Otherwise it is the exact arc with [r = linear /
    angular]: [x + r * (sin(heading + angular) - sin(heading))],
    [y - r * (cos(heading + angular) - cos(heading))], [heading + angular]. *)
Theorem integrate_exact_rule (this : SteeringOdometry) (linear angular : float) :
  let this' := integrate_exact libm this linear angular in
  let r := linear / angular in
  pose this'
  = (if cmath.fabs angular <? 1e-6 then
       (x_ this + linear * cos (heading_ this + angular * 0.5),
        y_ this + linear * sin (heading_ this + angular * 0.5),
        heading_ this + angular)
     else
       (x_ this + r * (sin (heading_ this + angular) - sin (heading_ this)),
        y_ this + - r * (cos (heading_ this + angular) - cos (heading_ this)),
        heading_ this + angular))
  /\ this' = set_pose this (x_ this') (y_ this') (heading_ this').
Proof.
  cbv zeta. unfold integrate_exact, integrate_runge_kutta_2.
  destruct (cmath.fabs angular <? 1e-6); split; reflexivity.
Qed.

(** Both integration rules add [angular] to the heading. *)
Lemma integrate_exact_heading (this : SteeringOdometry) (linear angular : float) :
  heading_ (integrate_exact libm this linear angular) = heading_ this + angular.
Proof.
  unfold integrate_exact, integrate_runge_kutta_2.
  now destruct (cmath.fabs angular <? 1e-6).
Qed.

(** [integrate_exact] reads the pose only. *)
Lemma integrate_exact_pose_ext (this that : SteeringOdometry)
  (linear angular : float) :
  pose this = pose that ->
  pose (integrate_exact libm this linear angular)
  = pose (integrate_exact libm that linear angular).
Proof.
  unfold pose. intros H. injection H as Hx Hy Hh.
  unfold integrate_exact, integrate_runge_kutta_2.
  destruct (cmath.fabs angular <? 1e-6); cbn; now rewrite Hx, Hy, Hh.
Qed.

Lemma integrate_exact_frame (this : SteeringOdometry) (linear angular : float) :
  linear_ (integrate_exact libm this linear angular) = linear_ this
  /\ angular_ (integrate_exact libm this linear angular) = angular_ this
  /\ steer_pos_ (integrate_exact libm this linear angular) = steer_pos_ this.
Proof.
  unfold integrate_exact, integrate_runge_kutta_2.
  now destruct (cmath.fabs angular <? 1e-6).
Qed.

(** ** The core update *)

(** The pose [update_odometry] leaves is the one [integrate_exact] computes
    from [linear_velocity * dt] and [angular], whatever [dt] is. *)
Lemma update_odometry_pose (this : SteeringOdometry)
  (linear_velocity angular dt : float) :
  pose (snd (update_odometry libm this linear_velocity angular dt))
  = pose (integrate_exact libm this (linear_velocity * dt) angular).
Proof.
  unfold update_odometry. now destruct (dt <? 0.0001).
Qed.

(** So the heading advances by [angular]. *)
Lemma update_odometry_heading (this : SteeringOdometry)
  (linear_velocity angular dt : float) :
  heading_ (snd (update_odometry libm this linear_velocity angular dt))
  = heading_ this + angular.
Proof.
  change (heading_ ?s) with (snd (pose s)) at 1.
  rewrite update_odometry_pose. apply integrate_exact_heading.
Qed.

(** Below the threshold [update_odometry] returns [false] and does nothing
    but integrate the pose. *)
Lemma update_odometry_small_dt (this : SteeringOdometry)
  (linear_velocity angular dt : float) :
  (dt <? 0.0001) = true ->
  update_odometry libm this linear_velocity angular dt
  = (false, integrate_exact libm this (linear_velocity * dt) angular).
Proof. intros H. unfold update_odometry. now rewrite H. Qed.

(** From the threshold on it returns [true] and reports the rolling means. *)
Lemma update_odometry_large_dt (this : SteeringOdometry)
  (linear_velocity angular dt : float) :
  (dt <? 0.0001) = false ->
  let r := update_odometry libm this linear_velocity angular dt in
  fst r = true
  /\ linear_acc_ (snd r) = rcppmath.accumulate (linear_acc_ this) linear_velocity
  /\ angular_acc_ (snd r) = rcppmath.accumulate (angular_acc_ this) (angular / dt)
  /\ linear_ (snd r) = rcppmath.getRollingMean (linear_acc_ (snd r))
  /\ angular_ (snd r) = rcppmath.getRollingMean (angular_acc_ (snd r)).
Proof.
  intros H. cbv zeta. unfold update_odometry. rewrite H. cbn.
  unfold integrate_exact, integrate_runge_kutta_2.
  destruct (cmath.fabs angular <? 1e-6); cbn; repeat split; reflexivity.
Qed.

Lemma entry_points_through_update_odometry (this : SteeringOdometry)
  (a b c d e f dt : float) :
  through_update_odometry libm this dt (update_from_position libm this a b dt)
  /\ through_update_odometry libm this dt (update_from_position_2 libm this a b c dt)
  /\ through_update_odometry libm this dt
       (update_from_position_3 libm this a b c d dt)
  /\ through_update_odometry libm this dt (update_from_velocity libm this a b dt)
  /\ through_update_odometry libm this dt (update_from_velocity_2 libm this a b c dt)
  /\ through_update_odometry libm this dt
       (update_from_velocity_3 libm this a b c d dt)
  /\ through_update_odometry libm this dt
       (update_four_steering libm this a b c d e f dt).
Proof.
  unfold through_update_odometry.
  repeat split; eexists _, _, _; (split; [|reflexivity]); reflexivity.
Qed.

(** C2.  [update_odometry], which every position- and velocity-based entry
    point ends in, integrates the pose with [linear_velocity * dt] and with
    [angular] as it is: the heading advances by [angular], not by
    [angular * dt].  [update_open_loop] integrates with [linear * dt] and
    [angular * dt]: the heading advances by [angular * dt]. *)
Theorem update_odometry_passes_angular_unscaled
  (this : SteeringOdometry) (linear angular dt : float) :
  pose (snd (update_odometry libm this linear angular dt))
  = pose (integrate_exact libm this (linear * dt) angular)
  /\ heading_ (snd (update_odometry libm this linear angular dt))
     = heading_ this + angular
  /\ pose (update_open_loop libm this linear angular dt)
     = pose (integrate_exact libm this (linear * dt) (angular * dt))
  /\ heading_ (update_open_loop libm this linear angular dt)
     = heading_ this + angular * dt
  /\ (forall a b c d e f : float,
        through_update_odometry libm this dt (update_from_position libm this a b dt)
        /\ through_update_odometry libm this dt
             (update_from_position_2 libm this a b c dt)
        /\ through_update_odometry libm this dt
             (update_from_position_3 libm this a b c d dt)
        /\ through_update_odometry libm this dt
             (update_from_velocity libm this a b dt)
        /\ through_update_odometry libm this dt
             (update_from_velocity_2 libm this a b c dt)
        /\ through_update_odometry libm this dt
             (update_from_velocity_3 libm this a b c d dt)
        /\ through_update_odometry libm this dt
             (update_four_steering libm this a b c d e f dt)).
Proof.
  split; [apply update_odometry_pose|].
  split; [apply update_odometry_heading|].
  split.
  { unfold update_open_loop. now apply integrate_exact_pose_ext. }
  split.
  { unfold update_open_loop. now rewrite integrate_exact_heading. }
  intros a b c d e f. apply entry_points_through_update_odometry.
Qed.

(** ** A time step below the threshold *)

Lemma small_dt_contract_intro (this this' : SteeringOdometry)
  (linear_velocity angular dt : float) :
  (dt <? 0.0001) = true ->
  pose this' = pose this ->
  linear_ this' = linear_ this ->
  angular_ this' = angular_ this ->
  small_dt_contract libm this dt
    (update_odometry libm this' linear_velocity angular dt).
Proof.
  intros Hdt Hp Hl Ha. rewrite update_odometry_small_dt by exact Hdt.
  destruct (integrate_exact_frame this' (linear_velocity * dt) angular)
    as (Fl & Fa & _).
  unfold small_dt_contract. cbn [fst snd].
  split; [reflexivity|]. split.
  - exists linear_velocity, angular. now apply integrate_exact_pose_ext.
  - now rewrite Fl, Fa.
Qed.

(** The six position- and velocity-based entry points keep the contract. *)
Lemma position_and_velocity_updates_small_dt (this : SteeringOdometry)
  (a b c d dt : float) :
  (dt <? 0.0001) = true ->
  small_dt_contract libm this dt (update_from_position libm this a b dt)
  /\ small_dt_contract libm this dt (update_from_position_2 libm this a b c dt)
  /\ small_dt_contract libm this dt (update_from_position_3 libm this a b c d dt)
  /\ small_dt_contract libm this dt (update_from_velocity libm this a b dt)
  /\ small_dt_contract libm this dt (update_from_velocity_2 libm this a b c dt)
  /\ small_dt_contract libm this dt (update_from_velocity_3 libm this a b c d dt).
Proof.
  intros Hdt.
  repeat match goal with |- _ /\ _ => split end;
    apply small_dt_contract_intro; (exact Hdt || reflexivity).
Qed.

(** [update_four_steering] assigns the data member [angular_] before it calls
    [update_odometry]: what it leaves there does not depend on what it
    found. *)
Lemma update_four_steering_forgets_angular (this : SteeringOdometry)
  (old fr fl rr rl front rear dt : float) :
  (dt <? 0.0001) = true ->
  angular_ (snd (update_four_steering libm (set_angular this old)
                   fr fl rr rl front rear dt))
  = angular_ (snd (update_four_steering libm this fr fl rr rl front rear dt)).
Proof.
  intros Hdt. unfold update_four_steering.
  rewrite !update_odometry_small_dt by exact Hdt. cbn [snd].
  repeat match goal with
         | |- context [integrate_exact libm ?s ?l ?a] =>
             rewrite (proj1 (proj2 (integrate_exact_frame s l a)))
         end.
  reflexivity.
Qed.

Lemma integrate_exact_set_pose (this : SteeringOdometry) (linear angular : float) :
  exists x y h : float,
    integrate_exact libm this linear angular = set_pose this x y h.
Proof.
  unfold integrate_exact, integrate_runge_kutta_2.
  destruct (cmath.fabs angular <? 1e-6); eexists _, _, _; reflexivity.
Qed.

(** Below the threshold [update_four_steering] leaves in [angular_] the mean
    of the front and rear angular rates it has just computed. *)
Lemma update_four_steering_angular (this : SteeringOdometry)
  (fr fl rr rl front rear dt : float) :
  (dt <? 0.0001) = true ->
  let front_tmp := cos front * (tan front - tan rear) / wheelbase_ this in
  let rear_tmp := cos rear * (tan front - tan rear) / wheelbase_ this in
  exists front_linear_speed rear_linear_speed : float,
    angular_ (snd (update_four_steering libm this fr fl rr rl front rear dt))
    = (front_linear_speed * front_tmp + rear_linear_speed * rear_tmp) / 2.
Proof.
  intros Hdt. cbv zeta. unfold update_four_steering.
  rewrite update_odometry_small_dt by exact Hdt. cbn [snd].
  match goal with
  | |- context [integrate_exact libm ?s ?l ?a] =>
      rewrite (proj1 (proj2 (integrate_exact_frame s l a)))
  end.
  eexists _, _. reflexivity.
Qed.

(** C1 fails on [update_four_steering].  The vehicle has been driven open
    loop at 0.5 rad/s, so [angular_] is 0.5.  [update_four_steering] is then
    called with all wheels at 1 rad/s, both steering angles 0 and
    [dt = 0.00005]: it returns [false], and [angular_] no longer compares
    equal to the 0.5 it held.  This holds for every <cmath> with
    [tan(0) = 0] and [cos(0) = 1]. *)
Theorem update_four_steering_small_dt_overwrites_angular :
  tan 0 = 0 -> cos 0 = 1 ->
  let this :=
    update_open_loop libm (vehicle FOUR_STEERING_CONFIG) 1 0.5 0.1 in
  let r := update_four_steering libm this 1 1 1 1 0 0 0.00005 in
  angular_ this = 0.5
  /\ fst r = false
  /\ (angular_ (snd r) =? angular_ this) = false.
Proof.
  intros Htan Hcos. cbv zeta. unfold update_open_loop.
  destruct (integrate_exact_set_pose
              (set_angular (set_linear (vehicle FOUR_STEERING_CONFIG) 1) 0.5)
              (1 * 0.1) (0.5 * 0.1)) as (x & y & h & E).
  rewrite E. split; [reflexivity|]. split.
  - unfold update_four_steering.
    now rewrite update_odometry_small_dt by reflexivity.
  - destruct (update_four_steering_angular
                (set_pose
                   (set_angular (set_linear (vehicle FOUR_STEERING_CONFIG) 1) 0.5)
                   x y h)
                1 1 1 1 0 0 0.00005 eq_refl) as (f & g & A).
    rewrite A, Htan, Hcos.
    apply half_sum_of_zero_multiples.
Qed.

(** ** The velocity-based entry points *)

(** C3, as the code has it.  With one and with two traction wheels and one
    steering axis, [update_from_velocity] passes on the wheel velocity (the
    sum of the two, halved) times the wheel radius as linear velocity, and
    [tan(steer_pos) * linear_velocity / wheelbase] as angular velocity.  With
    two steering axes it passes on [steer_pos_ * linear_velocity / wheelbase],
    where [steer_pos_] is the mean of the two steering angles: no tangent is
    taken, and the heading advances by that value. *)
Theorem update_from_velocity_angular (this : SteeringOdometry)
  (right_vel left_vel right_steer left_steer dt : float) :
  let linear_1 := right_vel * wheel_radius_ this in
  let linear_2 := (right_vel + left_vel) * wheel_radius_ this * 0.5 in
  let steer_2 := (right_steer + left_steer) * 0.5 in
  update_from_velocity libm this right_vel right_steer dt
  = update_odometry libm (set_steer_pos this right_steer)
      linear_1 (tan right_steer * linear_1 / wheelbase_ this) dt
  /\ update_from_velocity_2 libm this right_vel left_vel right_steer dt
     = update_odometry libm (set_steer_pos this right_steer)
         linear_2 (tan right_steer * linear_2 / wheelbase_ this) dt
  /\ update_from_velocity_3 libm this right_vel left_vel
       right_steer left_steer dt
     = update_odometry libm (set_steer_pos this steer_2)
         linear_2 (steer_2 * linear_2 / wheelbase_ this) dt
  /\ heading_ (snd (update_from_velocity_3 libm this right_vel left_vel
                      right_steer left_steer dt))
     = heading_ this + steer_2 * linear_2 / wheelbase_ this.
Proof.
  cbv zeta. repeat split.
  unfold update_from_velocity_3. now rewrite update_odometry_heading.
Qed.

(** The position-based overload with two steering axes does take the
    tangent of the mean steering angle. *)
Lemma update_from_position_3_angular (this : SteeringOdometry)
  (right_pos left_pos right_steer left_steer dt : float) :
  let steer := (right_steer + left_steer) * 0.5 in
  exists linear_velocity : float,
    heading_ (snd (update_from_position_3 libm this right_pos left_pos
                     right_steer left_steer dt))
    = heading_ this + tan steer * linear_velocity / wheelbase_ this.
Proof.
  cbv zeta. unfold update_from_position_3. eexists.
  now rewrite update_odometry_heading.
Qed.

(** ** Commands *)

(** C5.  With [from_twist], [get_commands] computes [Ws] and [alpha] as
    follows.  If [Vx == 0] and [angular != 0]: [alpha] is pi/2 when
    [angular > 0] and -pi/2 otherwise, and [Ws = |angular| * wheelbase /
    wheel_radius].  Otherwise [alpha] is 0 when [Vx == 0] or [angular == 0]
    and [atan(angular * wheelbase / Vx)] if not, and [Ws = Vx / (wheel_radius
    * cos(steer_pos_))].  The bicycle configuration returns the two as its
    traction and steering command. *)
Theorem get_commands_from_twist (this : SteeringOdometry)
  (Vx angular Ws_indeterminate : float) :
  get_commands_Ws_alpha libm this Vx angular true Ws_indeterminate
  = (if (Vx =? 0) && negb (angular =? 0) then
       (cmath.fabs angular * wheelbase_ this / wheel_radius_ this,
        if 0 <? angular then cmath.M_PI_2 else - cmath.M_PI_2)
     else
       (Vx / (wheel_radius_ this * cos (steer_pos_ this)),
        if (Vx =? 0) || (angular =? 0) then 0
        else atan (angular * wheelbase_ this / Vx)))
  /\ get_commands libm (set_odometry_type this BICYCLE_CONFIG)
       Vx angular true Ws_indeterminate
     = ret ([fst (get_commands_Ws_alpha libm this Vx angular true
                    Ws_indeterminate)],
            [snd (get_commands_Ws_alpha libm this Vx angular true
                    Ws_indeterminate)]).
Proof.
  split.
  - unfold get_commands_Ws_alpha, convert_trans_rot_vel_to_steering_angle.
    rewrite (orb_comm (angular =? 0) (Vx =? 0)).
    now destruct ((Vx =? 0) && negb (angular =? 0)).
  - unfold get_commands.
    change (get_commands_Ws_alpha libm (set_odometry_type this BICYCLE_CONFIG))
      with (get_commands_Ws_alpha libm this).
    now destruct (get_commands_Ws_alpha libm this Vx angular true
                    Ws_indeterminate).
Qed.

(** C6 fails: without [from_twist], [alpha] is [angular], but the local [Ws]
    is read although no statement has assigned it.  In the bicycle
    configuration the traction command is that indeterminate value. *)
Theorem get_commands_reads_unset_Ws (this : SteeringOdometry)
  (Vx angular Ws_indeterminate : float) :
  config_type_ this = BICYCLE_CONFIG ->
  get_commands libm this Vx angular false Ws_indeterminate
  = ret ([Ws_indeterminate], [angular]).
Proof.
  intros H. unfold get_commands, get_commands_Ws_alpha. now rewrite H.
Qed.

(** In the other three configurations the traction commands are computed
    from the same unset [Ws]. *)
Lemma get_commands_straight_reads_unset_Ws (this : SteeringOdometry)
  (Vx angular Ws_indeterminate : float) :
  (cmath.fabs (steer_pos_ this) <? 1e-6) = true ->
  (config_type_ this = TRICYCLE_CONFIG ->
   get_commands libm this Vx angular false Ws_indeterminate
   = ret ([Ws_indeterminate; Ws_indeterminate], [angular]))
  /\ (config_type_ this = ACKERMANN_CONFIG ->
      get_commands libm this Vx angular false Ws_indeterminate
      = ret ([Ws_indeterminate; Ws_indeterminate], [angular; angular])).
Proof.
  intros Hs. split; intros H;
    unfold get_commands, get_commands_Ws_alpha; now rewrite H, Hs.
Qed.

(** ** Four-wheel steering, straight ahead *)

(** With [from_twist] and [angular == 0], [alpha] is [+0.0]. *)
Lemma get_commands_Ws_alpha_straight (this : SteeringOdometry)
  (Vx angular Ws_indeterminate : float) :
  (angular =? 0) = true ->
  get_commands_Ws_alpha libm this Vx angular true Ws_indeterminate
  = (Vx / (wheel_radius_ this * cos (steer_pos_ this)), 0).
Proof.
  intros H.
  unfold get_commands_Ws_alpha, convert_trans_rot_vel_to_steering_angle.
  rewrite H. cbn [negb orb]. now rewrite andb_false_r.
Qed.

Lemma atan_of_zero (x : float) :
  (atan 0 =? 0) = true -> (atan (- 0) =? 0) = true ->
  PrimFloat.is_zero x = true -> PrimFloat.is_zero (atan x) = true.
Proof.
  intros Hp Hn H. destruct (is_zero_cases x H) as [-> | ->]; assumption.
Qed.

Lemma hypot_sub_add (w a b : float) :
  (forall y, hypot (- 0) y = hypot 0 y) ->
  zero_or_nan a -> hypot (w - a) b = hypot (w + a) b.
Proof.
  intros Hh Ha. destruct (sub_add_zero_or_nan w a Ha) as [E | [E1 E2]].
  - now rewrite E.
  - destruct (is_zero_cases _ E1) as [-> | ->],
      (is_zero_cases _ E2) as [-> | ->];
      rewrite ?Hh; reflexivity.
Qed.

Lemma all_same_left_right (l r : float) :
  same_value l r = true -> all_same [l; r; l; r].
Proof.
  intros H x y Hx Hy. cbn in Hx, Hy.
  assert (H' : same_value r l = true) by now rewrite same_value_sym.
  destruct Hx as [<-|[<-|[<-|[<-|[]]]]], Hy as [<-|[<-|[<-|[<-|[]]]]];
    auto using same_value_refl.
Qed.

(** C9.  In the four-wheel-steering configuration, with a finite wheelbase
    and a finite steering track ([wheel_track - 2 * y_steering_offset]),
    [get_commands] with [from_twist], [angular == 0] and any [Vx] returns four
    steering commands that all compare equal to zero and four traction
    commands that are all the same value.  Of <cmath> the proof uses that
    [atan] maps a zero to a zero and that [hypot] does not look at the sign of
    a zero first argument. *)
Theorem get_commands_four_steering_straight (this : SteeringOdometry)
  (Vx angular Ws_indeterminate : float) :
  (atan 0 =? 0) = true -> (atan (- 0) =? 0) = true ->
  (forall y, hypot (- 0) y = hypot 0 y) ->
  config_type_ this = FOUR_STEERING_CONFIG ->
  is_finite (wheelbase_ this) = true ->
  is_finite (wheel_track_ this - 2 * y_steering_offset_ this) = true ->
  (angular =? 0) = true ->
  exists traction_commands steering_commands : list float,
    get_commands libm this Vx angular true Ws_indeterminate
    = ret (traction_commands, steering_commands)
    /\ List.length steering_commands = 4%nat
    /\ Forall (fun c => (c =? 0) = true) steering_commands
    /\ List.length traction_commands = 4%nat
    /\ all_same traction_commands.
Proof.
  intros Hap Han Hh Hcfg HL Hst Hang.
  unfold get_commands.
  rewrite (get_commands_Ws_alpha_straight this Vx angular _ Hang), Hcfg.
  cbn [N.eqb BICYCLE_CONFIG TRICYCLE_CONFIG ACKERMANN_CONFIG
         FOUR_STEERING_CONFIG Pos.eqb].
  set (Ws := Vx / (wheel_radius_ this * cos (steer_pos_ this))).
  set (steering_track := wheel_track_ this - 2 * y_steering_offset_ this) in *.
  pose proof (zero_mul_finite _ Hst) as Zst.
  pose proof (zero_mul_finite _ HL) as ZL.
  assert (Hsteer :
    exists fl fr : float,
      (if cmath.fabs (0 * steering_track) <? cmath.fabs (2 * Ws)
       then (atan (0 * wheelbase_ this / (2 * Ws - 0 * steering_track)),
             atan (0 * wheelbase_ this / (2 * Ws + 0 * steering_track)))
       else if 0.001 <? cmath.fabs Ws
            then (copysign cmath.M_PI_2 0, copysign cmath.M_PI_2 0)
            else (0, 0)) = (fl, fr)
      /\ PrimFloat.is_zero fl = true /\ PrimFloat.is_zero fr = true).
  { unfold cmath.fabs.
    destruct (PrimFloat.abs (0 * steering_track) <? PrimFloat.abs (2 * Ws))
      eqn:C.
    - destruct (zero_div_shifted _ _ _ ZL Zst C) as [Z1 Z2].
      eexists _, _. split; [reflexivity|].
      split; apply atan_of_zero; assumption.
    - destruct (0.001 <? PrimFloat.abs Ws) eqn:C'.
      + rewrite (doubling_exceeds_zero _ _ Zst C') in C. discriminate C.
      + eexists _, _. split; [reflexivity|]. split; reflexivity. }
  destruct Hsteer as (fl & fr & -> & Zfl & Zfr).
  eexists _, _. split; [reflexivity|].
  split; [reflexivity|]. split.
  { repeat constructor; try assumption; now apply is_zero_opp. }
  split; [reflexivity|].
  rewrite (hypot_sub_add Ws (0 * steering_track / 2) _ Hh)
    by apply zero_or_nan_div, zero_mul_zero_or_nan.
  apply all_same_left_right, same_value_sub_add.
  apply zero_or_nan_div, zero_mul_zero_or_nan.
Qed.

End OdometryFacts.

(** * The theorems on concrete inputs *)

Section OnConcreteInputs.

Import steering_odometry.

Lemma integrate_exact_rule_straight :
  pose (integrate_exact cmath.approx (vehicle BICYCLE_CONFIG) 2 0) = (2, 0, 0).
Proof. reflexivity. Qed.

Lemma update_four_steering_small_dt_overwrites_angular_witness :
  let this :=
    update_open_loop cmath.approx (vehicle FOUR_STEERING_CONFIG) 1 0.5 0.1 in
  let r := update_four_steering cmath.approx this 1 1 1 1 0 0 0.00005 in
  angular_ this = 0.5
  /\ fst r = false
  /\ (angular_ (snd r) =? angular_ this) = false.
Proof.
  apply (update_four_steering_small_dt_overwrites_angular cmath.approx);
    reflexivity.
Defined.

(** The same call, evaluated: [angular_] goes from 0.5 to 0. *)
Example update_four_steering_small_dt_evaluated :
  let this :=
    update_open_loop cmath.approx (vehicle FOUR_STEERING_CONFIG) 1 0.5 0.1 in
  let r := update_four_steering cmath.approx this 1 1 1 1 0 0 0.00005 in
  (fst r, angular_ this, angular_ (snd r)) = (false, 0.5, 0).
Proof. reflexivity. Qed.

(** With two steering axes at 1 rad the velocity overload advances the
    heading by [1 * 0.5 / 1]; the overload with one steering axis at 1 rad
    advances it by [tan(1) * 0.5 / 1]. *)
Example update_from_velocity_3_evaluated :
  heading_ (snd (update_from_velocity_3 cmath.approx
                   (vehicle ACKERMANN_CONFIG) 1 1 1 1 0.1)) = 0.5
  /\ heading_ (snd (update_from_velocity_2 cmath.approx
                      (vehicle ACKERMANN_CONFIG) 1 1 1 0.1))
     = cmath.tan cmath.approx 1 * 0.5.
Proof. split; reflexivity. Qed.

Lemma get_commands_reads_unset_Ws_witness :
  get_commands cmath.approx (vehicle BICYCLE_CONFIG) 1 0.3 false 7
  = ret ([7], [0.3]).
Proof.
  apply (get_commands_reads_unset_Ws cmath.approx (vehicle BICYCLE_CONFIG)).
  reflexivity.
Defined.

(** Two runs that differ in nothing but what the unset local holds return
    different traction commands. *)
Example get_commands_depends_on_unset_Ws :
  get_commands cmath.approx (vehicle BICYCLE_CONFIG) 1 0.3 false 7
  <> get_commands cmath.approx (vehicle BICYCLE_CONFIG) 1 0.3 false 8.
Proof. discriminate. Qed.

Lemma get_commands_four_steering_straight_witness :
  exists traction_commands steering_commands : list float,
    get_commands cmath.approx (vehicle FOUR_STEERING_CONFIG) 1 0 true 0
    = ret (traction_commands, steering_commands)
    /\ List.length steering_commands = 4%nat
    /\ Forall (fun c => (c =? 0) = true) steering_commands
    /\ List.length traction_commands = 4%nat
    /\ all_same traction_commands.
Proof.
  apply (get_commands_four_steering_straight cmath.approx
           (vehicle FOUR_STEERING_CONFIG) 1 0 0);
    reflexivity.
Defined.

Example get_commands_four_steering_straight_evaluated :
  get_commands cmath.approx (vehicle FOUR_STEERING_CONFIG) 1 0 true 0
  = ret ([4; 4; 4; 4], [0; 0; -0; -0]).
Proof. reflexivity. Qed.

Lemma position_and_velocity_updates_small_dt_witness :
  small_dt_contract cmath.approx (vehicle TRICYCLE_CONFIG) 0.00005
    (update_from_position cmath.approx (vehicle TRICYCLE_CONFIG)
       1 0.2 0.00005)
  /\ small_dt_contract cmath.approx (vehicle TRICYCLE_CONFIG) 0.00005
       (update_from_velocity_3 cmath.approx (vehicle TRICYCLE_CONFIG)
          1 0.2 1 0.2 0.00005).
Proof.
  pose proof (position_and_velocity_updates_small_dt cmath.approx
                (vehicle TRICYCLE_CONFIG) 1 0.2 1 0.2 0.00005 eq_refl) as H.
  split; [apply (proj1 H) | apply (proj2 (proj2 (proj2 (proj2 (proj2 H)))))].
Defined.

(** The same two calls, evaluated: [false], and the estimates stay 0. *)
Example update_from_position_small_dt_evaluated :
  let r :=
    update_from_position cmath.approx (vehicle TRICYCLE_CONFIG) 1 0.2 0.00005 in
  (fst r, linear_ (snd r), angular_ (snd r), x_ (snd r) =? 0)
  = (false, 0, 0, false).
Proof. reflexivity. Qed.

Lemma limit_within_velocity_limits_without_jerk_witness :
  within (-1) 1
    (snd (four_steering_controller.limit no_jerk_limiter
            (-1e308) 1e308 (-1e308) 1e200)) = true.
Proof.
  apply (limit_within_velocity_limits_without_jerk no_jerk_limiter
           (-1e308) 1e308 (-1e308) 1e200);
    reflexivity.
Defined.

End OnConcreteInputs.

(** * More about the speed limiter *)

Section MoreSpeedLimiterFacts.

Import four_steering_controller.

(** ** More comparisons *)

Lemma ltb_irrefl (x : float) : (x <? x) = false.
Proof.
  rewrite FloatAxioms.ltb_spec. unfold SFltb.
  destruct (Prim2SF x) as [s|s| |s m e] eqn:E; try reflexivity;
    rewrite SFcompare_refl by discriminate; reflexivity.
Qed.

Lemma leb_true_ltb_false (x y : float) :
  (x <=? y) = true -> (y <? x) = false.
Proof.
  rewrite FloatAxioms.leb_spec, FloatAxioms.ltb_spec. unfold SFleb, SFltb.
  rewrite (SFcompare_antisym (Prim2SF x) (Prim2SF y)).
  now destruct (SFcompare (Prim2SF x) (Prim2SF y)) as [[]|].
Qed.

Lemma is_nan_opp (x : float) : is_nan (- x) = is_nan x.
Proof.
  destruct (is_nan x) eqn:E.
  - apply is_nan_Prim2SF. apply is_nan_Prim2SF in E.
    now rewrite FloatAxioms.opp_spec, E.
  - apply not_nan_Prim2SF. apply not_nan_Prim2SF in E.
    rewrite FloatAxioms.opp_spec. now destruct (Prim2SF x).
Qed.

(** A negative number is below its negation. *)
Lemma negative_below_opp (x : float) : (x <? 0) = true -> (x <? - x) = true.
Proof.
  rewrite !FloatAxioms.ltb_spec, FloatAxioms.opp_spec.
  change (Prim2SF 0) with (S754_zero false).
  destruct (Prim2SF x) as [s|[]| |[] m e]; cbn; intros H;
    try discriminate H; reflexivity.
Qed.

Lemma is_nan_eq (x : float) : is_nan x = true -> x = nan.
Proof.
  intros H. apply is_nan_Prim2SF in H. apply Prim2SF_inj. now rewrite H.
Qed.

Lemma nan_sub (x : float) : nan - x = nan.
Proof.
  apply Prim2SF_inj. rewrite FloatAxioms.sub_spec.
  change (Prim2SF nan) with S754_nan. reflexivity.
Qed.

Lemma add_nan (x : float) : x + nan = nan.
Proof.
  apply Prim2SF_inj. rewrite FloatAxioms.add_spec.
  change (Prim2SF nan) with S754_nan. now destruct (Prim2SF x).
Qed.

(** ** [rcppmath::clamp] between ordered bounds *)

Lemma clamp_in_range (v lo hi : float) :
  (lo <=? v) = true -> (v <=? hi) = true -> rcppmath.clamp v lo hi = v.
Proof.
  intros H1 H2. unfold rcppmath.clamp.
  now rewrite (leb_true_ltb_false lo v H1), (leb_true_ltb_false v hi H2).
Qed.

Lemma clamp_idempotent (v lo hi : float) :
  (lo <=? hi) = true ->
  rcppmath.clamp (rcppmath.clamp v lo hi) lo hi = rcppmath.clamp v lo hi.
Proof.
  intros H. pose proof (leb_true_ltb_false lo hi H) as H'.
  unfold rcppmath.clamp.
  destruct (v <? lo) eqn:E1.
  - now rewrite ltb_irrefl, H'.
  - destruct (hi <? v) eqn:E2.
    + now rewrite H', ltb_irrefl.
    + now rewrite E1, E2.
Qed.

(** ** The constructor *)

(** A limiter the constructor returns has numbers as the bounds of every
    enabled category. *)
Theorem make_enabled_bounds_are_numbers
  (has_velocity_limits has_acceleration_limits has_jerk_limits : bool)
  (min_velocity max_velocity min_acceleration max_acceleration
     min_jerk max_jerk : float) (this : SpeedLimiter) :
  make has_velocity_limits has_acceleration_limits has_jerk_limits
    min_velocity max_velocity min_acceleration max_acceleration
    min_jerk max_jerk = inr this ->
  (has_velocity_limits_ this = true ->
   is_nan (min_velocity_ this) = false /\ is_nan (max_velocity_ this) = false)
  /\ (has_acceleration_limits_ this = true ->
      is_nan (min_acceleration_ this) = false
      /\ is_nan (max_acceleration_ this) = false)
  /\ (has_jerk_limits_ this = true ->
      is_nan (min_jerk_ this) = false /\ is_nan (max_jerk_ this) = false).
Proof.
  unfold make, cmath.isnan. intros H.
  destruct has_velocity_limits, has_acceleration_limits, has_jerk_limits;
    repeat (cbn -[is_nan] in H;
            match type of H with
            | context [is_nan ?x] =>
                match goal with
                | E : is_nan x = _ |- _ => rewrite E in H
                | _ => destruct (is_nan x) eqn:?
                end
            end);
    cbn -[is_nan] in H; try discriminate H;
    injection H as <-; cbn -[is_nan];
    repeat split; intros; try congruence;
    rewrite ?is_nan_opp; assumption.
Qed.

(** The constructor does not compare a category's bounds.  With velocity
    limits enabled, a NaN minimum and a negative maximum, it returns a limiter
    whose minimum, the negated maximum, is above its maximum. *)
Theorem make_accepts_inverted_bounds
  (max_velocity min_acceleration max_acceleration min_jerk max_jerk : float) :
  (max_velocity <? 0) = true ->
  exists this : SpeedLimiter,
    make true false false nan max_velocity
      min_acceleration max_acceleration min_jerk max_jerk = inr this
    /\ min_velocity_ this = - max_velocity
    /\ (max_velocity_ this <? min_velocity_ this) = true.
Proof.
  intros H. destruct (ltb_not_nan _ _ H) as [N _].
  unfold make, cmath.isnan. cbn -[is_nan]. rewrite N. cbn.
  eexists. split; [reflexivity|]. cbn. split; [reflexivity|].
  now apply negative_below_opp.
Qed.

(** ** The stages *)

(** The velocity stage leaves a value between the limits as it is. *)
Theorem limit_velocity_in_range (this : SpeedLimiter) (v : float) :
  within (min_velocity_ this) (max_velocity_ this) v = true ->
  snd (limit_velocity this v) = v.
Proof.
  unfold within. intros H. apply andb_prop in H. destruct H as [H1 H2].
  unfold limit_velocity. cbn [snd].
  destruct (has_velocity_limits_ this); [|reflexivity].
  now apply clamp_in_range.
Qed.

(** Applying the velocity stage to its own result changes nothing, when the
    limits are ordered. *)
Theorem limit_velocity_idempotent (this : SpeedLimiter) (v : float) :
  (min_velocity_ this <=? max_velocity_ this) = true ->
  snd (limit_velocity this (snd (limit_velocity this v)))
  = snd (limit_velocity this v).
Proof.
  intros H. unfold limit_velocity. cbn [snd].
  destruct (has_velocity_limits_ this); [|reflexivity].
  now apply clamp_idempotent.
Qed.

(** An enabled acceleration stage leaves [v0 + dv] with [dv] between
    [min_acceleration * dt] and [max_acceleration * dt], when these two are
    ordered and [v - v0] is a number. *)
Theorem limit_acceleration_step_bounded
  (this : SpeedLimiter) (v v0 dt : float) :
  has_acceleration_limits_ this = true ->
  (min_acceleration_ this * dt <=? max_acceleration_ this * dt) = true ->
  is_nan (v - v0) = false ->
  exists dv : float,
    snd (limit_acceleration this v v0 dt) = v0 + dv
    /\ within (min_acceleration_ this * dt) (max_acceleration_ this * dt) dv
       = true.
Proof.
  intros Hhas Hb Hv. unfold limit_acceleration. cbn [snd]. rewrite Hhas.
  eexists. split; [reflexivity|]. now apply clamp_within.
Qed.

(** An enabled jerk stage leaves [v0 + (v0 - v1) + da] with [da] between
    [min_jerk * 2dt^2] and [max_jerk * 2dt^2], when these two are ordered and
    [(v - v0) - (v0 - v1)] is a number. *)
Theorem limit_jerk_step_bounded
  (this : SpeedLimiter) (v v0 v1 dt : float) :
  has_jerk_limits_ this = true ->
  (min_jerk_ this * (2 * dt * dt) <=? max_jerk_ this * (2 * dt * dt)) = true ->
  is_nan (v - v0 - (v0 - v1)) = false ->
  exists da : float,
    snd (limit_jerk this v v0 v1 dt) = v0 + (v0 - v1) + da
    /\ within (min_jerk_ this * (2 * dt * dt)) (max_jerk_ this * (2 * dt * dt))
         da = true.
Proof.
  intros Hhas Hb Hv. unfold limit_jerk. cbn [snd]. rewrite Hhas.
  eexists. split; [reflexivity|]. now apply clamp_within.
Qed.

(** No stage removes a NaN: given a NaN, [limit] leaves a NaN in [v] and
    returns a NaN, whatever the limiter, the previous samples and [dt]. *)
Theorem limit_passes_nan (this : SpeedLimiter) (v0 v1 dt : float) :
  limit this nan v0 v1 dt = (nan, nan).
Proof.
  unfold limit, limit_jerk, limit_acceleration, limit_velocity.
  destruct (has_jerk_limits_ this), (has_acceleration_limits_ this),
    (has_velocity_limits_ this); cbv zeta beta iota;
    rewrite ?nan_sub, ?clamp_nan, ?add_nan, ?nan_sub, ?clamp_nan, ?add_nan,
      ?clamp_nan;
    reflexivity.
Qed.

End MoreSpeedLimiterFacts.

(** * More about the odometry *)

Section MoreOdometryFacts.

Import steering_odometry.

Variable libm : cmath.t.

Local Abbreviation tan := (cmath.tan libm).
Local Abbreviation cos := (cmath.cos libm).

(** ** What the updates return and what they leave alone *)

Lemma update_odometry_returns (this : SteeringOdometry)
  (linear_velocity angular dt : float) :
  fst (update_odometry libm this linear_velocity angular dt)
  = negb (dt <? 0.0001).
Proof. unfold update_odometry. now destruct (dt <? 0.0001). Qed.

(** [update_odometry] writes the pose, the two estimates and the two
    accumulators, and nothing else. *)
Lemma update_odometry_frame (this : SteeringOdometry)
  (linear_velocity angular dt : float) :
  let this' := snd (update_odometry libm this linear_velocity angular dt) in
  configuration this' = configuration this
  /\ old_positions this' = old_positions this
  /\ steer_pos_ this' = steer_pos_ this
  /\ timestamp_ this' = timestamp_ this.
Proof.
  cbv zeta. unfold update_odometry, integrate_exact, integrate_runge_kutta_2.
  destruct (cmath.fabs angular <? 1e-6), (dt <? 0.0001);
    repeat split; reflexivity.
Qed.

Lemma integrate_exact_keeps (this : SteeringOdometry) (linear angular : float) :
  let this' := integrate_exact libm this linear angular in
  configuration this' = configuration this
  /\ old_positions this' = old_positions this
  /\ linear_acc_ this' = linear_acc_ this
  /\ angular_acc_ this' = angular_acc_ this.
Proof.
  cbv zeta. unfold integrate_exact, integrate_runge_kutta_2.
  destruct (cmath.fabs angular <? 1e-6); repeat split; reflexivity.
Qed.

(** Every feedback entry point returns [true] exactly when [dt < 0.0001] is
    false: for a [dt] of at least 0.0001, and for a NaN [dt]. *)
Theorem updates_return_whether_dt_suffices (this : SteeringOdometry)
  (a b c d e f dt : float) :
  let enough := negb (dt <? 0.0001) in
  fst (update_from_position libm this a b dt) = enough
  /\ fst (update_from_position_2 libm this a b c dt) = enough
  /\ fst (update_from_position_3 libm this a b c d dt) = enough
  /\ fst (update_from_velocity libm this a b dt) = enough
  /\ fst (update_from_velocity_2 libm this a b c dt) = enough
  /\ fst (update_from_velocity_3 libm this a b c d dt) = enough
  /\ fst (update_four_steering libm this a b c d e f dt) = enough.
Proof.
  cbv zeta. repeat split; apply update_odometry_returns.
Qed.

(** No update changes the wheel geometry, the drivetrain configuration or the
    window size. *)
Theorem updates_keep_configuration (this : SteeringOdometry)
  (a b c d e f dt : float) :
  configuration (snd (update_from_position libm this a b dt))
  = configuration this
  /\ configuration (snd (update_from_position_2 libm this a b c dt))
     = configuration this
  /\ configuration (snd (update_from_position_3 libm this a b c d dt))
     = configuration this
  /\ configuration (snd (update_from_velocity libm this a b dt))
     = configuration this
  /\ configuration (snd (update_from_velocity_2 libm this a b c dt))
     = configuration this
  /\ configuration (snd (update_from_velocity_3 libm this a b c d dt))
     = configuration this
  /\ configuration (snd (update_four_steering libm this a b c d e f dt))
     = configuration this
  /\ configuration (update_open_loop libm this a b dt) = configuration this.
Proof.
  unfold update_from_position, update_from_position_2, update_from_position_3,
    update_from_velocity, update_from_velocity_2, update_from_velocity_3,
    update_four_steering, update_open_loop.
  cbv zeta.
  repeat match goal with |- _ /\ _ => split end;
    try exact (proj1 (integrate_exact_keeps _ _ _));
    match goal with
    | |- configuration (snd (update_odometry libm ?s ?l ?w ?t)) = _ =>
        rewrite (proj1 (update_odometry_frame s l w t)); reflexivity
    end.
Qed.

(** Every update with a single steering reading leaves that reading in
    [steer_pos_], and every update with two leaves their mean there, whatever
    it returns.  [update_four_steering] and [update_open_loop] leave
    [steer_pos_] as it was. *)
Theorem updates_record_steering (this : SteeringOdometry)
  (a b c d e f steer right_steer left_steer dt : float) :
  steer_pos_ (snd (update_from_position libm this a steer dt)) = steer
  /\ steer_pos_ (snd (update_from_position_2 libm this a b steer dt)) = steer
  /\ steer_pos_ (snd (update_from_position_3 libm this a b
                        right_steer left_steer dt))
     = (right_steer + left_steer) * 0.5
  /\ steer_pos_ (snd (update_from_velocity libm this a steer dt)) = steer
  /\ steer_pos_ (snd (update_from_velocity_2 libm this a b steer dt)) = steer
  /\ steer_pos_ (snd (update_from_velocity_3 libm this a b
                        right_steer left_steer dt))
     = (right_steer + left_steer) * 0.5
  /\ steer_pos_ (snd (update_four_steering libm this a b c d e f dt))
     = steer_pos_ this
  /\ steer_pos_ (update_open_loop libm this a b dt) = steer_pos_ this.
Proof.
  unfold update_from_position, update_from_position_2, update_from_position_3,
    update_from_velocity, update_from_velocity_2, update_from_velocity_3,
    update_four_steering, update_open_loop.
  cbv zeta.
  repeat match goal with |- _ /\ _ => split end;
    try exact (proj2 (proj2 (integrate_exact_frame libm _ _ _)));
    match goal with
    | |- steer_pos_ (snd (update_odometry libm ?s ?l ?w ?t)) = _ =>
        rewrite (proj1 (proj2 (proj2 (update_odometry_frame s l w t))));
        reflexivity
    end.
Qed.

(** A position-based update remembers the wheel positions it was given,
    times the wheel radius, whatever it returns: the overload with one
    traction wheel in [traction_wheel_old_pos_], the overloads with two in
    the right and left ones.  Each leaves the other remembered positions,
    and every other update leaves all three, as they were. *)
Theorem updates_remember_positions (this : SteeringOdometry)
  (a b c d e f pos right_pos left_pos dt : float) :
  old_positions (snd (update_from_position libm this pos a dt))
  = (pos * wheel_radius_ this,
     traction_right_wheel_old_pos_ this, traction_left_wheel_old_pos_ this)
  /\ old_positions (snd (update_from_position_2 libm this
                           right_pos left_pos a dt))
     = (traction_wheel_old_pos_ this,
        right_pos * wheel_radius_ this, left_pos * wheel_radius_ this)
  /\ old_positions (snd (update_from_position_3 libm this
                           right_pos left_pos a b dt))
     = (traction_wheel_old_pos_ this,
        right_pos * wheel_radius_ this, left_pos * wheel_radius_ this)
  /\ old_positions (snd (update_from_velocity libm this a b dt))
     = old_positions this
  /\ old_positions (snd (update_from_velocity_2 libm this a b c dt))
     = old_positions this
  /\ old_positions (snd (update_from_velocity_3 libm this a b c d dt))
     = old_positions this
  /\ old_positions (snd (update_four_steering libm this a b c d e f dt))
     = old_positions this
  /\ old_positions (update_open_loop libm this a b dt) = old_positions this.
Proof.
  unfold update_from_position, update_from_position_2, update_from_position_3,
    update_from_velocity, update_from_velocity_2, update_from_velocity_3,
    update_four_steering, update_open_loop.
  cbv zeta.
  repeat match goal with |- _ /\ _ => split end;
    try exact (proj1 (proj2 (integrate_exact_keeps _ _ _)));
    match goal with
    | |- old_positions (snd (update_odometry libm ?s ?l ?w ?t)) = _ =>
        rewrite (proj1 (proj2 (update_odometry_frame s l w t)));
        reflexivity
    end.
Qed.

(** [update_open_loop] reports the commanded velocities as they are and does
    not feed the accumulators, whatever [dt] is. *)
Theorem update_open_loop_estimates (this : SteeringOdometry)
  (linear angular dt : float) :
  let this' := update_open_loop libm this linear angular dt in
  linear_ this' = linear
  /\ angular_ this' = angular
  /\ linear_acc_ this' = linear_acc_ this
  /\ angular_acc_ this' = angular_acc_ this.
Proof.
  cbv zeta. unfold update_open_loop.
  set (s := set_angular (set_linear this linear) angular).
  destruct (integrate_exact_frame libm s (linear * dt) (angular * dt))
    as (Fl & Fa & _).
  destruct (integrate_exact_keeps s (linear * dt) (angular * dt))
    as (_ & _ & Al & Aa).
  rewrite Fl, Fa, Al, Aa. repeat split; reflexivity.
Qed.

(** The pose after an update depends on the pose before it and on the
    velocities of this step only: two objects with the same pose, whatever
    their estimates and accumulators hold, have the same pose after
    [update_odometry]. *)
Theorem update_odometry_pose_independent (this that : SteeringOdometry)
  (linear_velocity angular dt : float) :
  pose this = pose that ->
  pose (snd (update_odometry libm this linear_velocity angular dt))
  = pose (snd (update_odometry libm that linear_velocity angular dt)).
Proof.
  intros H. rewrite !update_odometry_pose.
  now apply integrate_exact_pose_ext.
Qed.

(** ** Resetting *)

(** [reset_odometry] zeroes the pose and restarts the accumulators.  It keeps
    the velocity estimates, the steering angle, the remembered wheel positions
    and the configuration, and resetting twice is resetting once. *)
Theorem reset_odometry_effect (this : SteeringOdometry) :
  let this' := reset_odometry this in
  pose this' = (0, 0, 0)
  /\ linear_acc_ this' = rcppmath.make (velocity_rolling_window_size_ this)
  /\ angular_acc_ this' = rcppmath.make (velocity_rolling_window_size_ this)
  /\ linear_ this' = linear_ this
  /\ angular_ this' = angular_ this
  /\ steer_pos_ this' = steer_pos_ this
  /\ old_positions this' = old_positions this
  /\ configuration this' = configuration this
  /\ reset_odometry this' = this'.
Proof. cbv zeta. repeat split; reflexivity. Qed.

(** [init] restarts the accumulators and stores the time; the pose and the
    velocity estimates stay.  [init] and [reset_odometry] can be called in
    either order. *)
Theorem init_effect (this : SteeringOdometry) (time : Z) :
  let this' := init this time in
  timestamp_ this' = time
  /\ linear_acc_ this' = rcppmath.make (velocity_rolling_window_size_ this)
  /\ angular_acc_ this' = rcppmath.make (velocity_rolling_window_size_ this)
  /\ pose this' = pose this
  /\ linear_ this' = linear_ this
  /\ angular_ this' = angular_ this
  /\ configuration this' = configuration this
  /\ reset_odometry this' = init (reset_odometry this) time.
Proof. cbv zeta. repeat split; reflexivity. Qed.

(** ** The shape of the commands *)

(** [get_commands] throws exactly for a configuration that is none of the
    four, and with the message "Config not implemented".  Otherwise it returns
    one traction and one steering command for a bicycle, two and one for a
    tricycle, two and two for an Ackermann vehicle, four and four for
    four-wheel steering. *)
Theorem get_commands_shape (this : SteeringOdometry)
  (Vx angular : float) (from_twist : bool) (Ws_indeterminate : float) :
  match get_commands libm this Vx angular from_twist Ws_indeterminate with
  | inr (traction_commands, steering_commands) =>
      (List.length traction_commands, List.length steering_commands)
      = (if (config_type_ this =? BICYCLE_CONFIG)%N then (1, 1)
         else if (config_type_ this =? TRICYCLE_CONFIG)%N then (2, 1)
         else if (config_type_ this =? ACKERMANN_CONFIG)%N then (2, 2)
         else (4, 4))%nat
      /\ In (config_type_ this)
           [BICYCLE_CONFIG; TRICYCLE_CONFIG; ACKERMANN_CONFIG;
            FOUR_STEERING_CONFIG]
  | inl e =>
      e = RuntimeError "Config not implemented"
      /\ ~ In (config_type_ this)
             [BICYCLE_CONFIG; TRICYCLE_CONFIG; ACKERMANN_CONFIG;
              FOUR_STEERING_CONFIG]
  end.
Proof.
  unfold get_commands.
  destruct (get_commands_Ws_alpha libm this Vx angular from_twist
              Ws_indeterminate) as [Ws alpha].
  destruct (N.eqb_spec (config_type_ this) BICYCLE_CONFIG) as [E0|N0].
  { cbn. split; [reflexivity|]. now left. }
  destruct (N.eqb_spec (config_type_ this) TRICYCLE_CONFIG) as [E1|N1].
  { destruct (cmath.fabs (steer_pos_ this) <? 1e-6); cbn;
      (split; [reflexivity|]); right; now left. }
  destruct (N.eqb_spec (config_type_ this) ACKERMANN_CONFIG) as [E2|N2].
  { destruct (cmath.fabs (steer_pos_ this) <? 1e-6); cbn;
      (split; [reflexivity|]); right; right; now left. }
  destruct (N.eqb_spec (config_type_ this) FOUR_STEERING_CONFIG) as [E3|N3].
  { match goal with
    | |- context [if ?c then _ else _] => destruct c
    end;
      [|match goal with
        | |- context [if ?c then _ else _] => destruct c
        end];
      cbn; (split; [reflexivity|]); right; right; right; now left. }
  cbn. split; [reflexivity|].
  intros [H|[H|[H|[H|[]]]]]; congruence.
Qed.

(** In the four-wheel-steering configuration each rear wheel gets the
    traction command of the front wheel on its side and the negated steering
    command of that wheel. *)
Theorem get_commands_four_steering_rear_mirrors_front (this : SteeringOdometry)
  (Vx angular : float) (from_twist : bool) (Ws_indeterminate : float) :
  config_type_ this = FOUR_STEERING_CONFIG ->
  exists left_traction right_traction left_steering right_steering : float,
    get_commands libm this Vx angular from_twist Ws_indeterminate
    = ret ([left_traction; right_traction; left_traction; right_traction],
           [left_steering; right_steering;
            - left_steering; - right_steering]).
Proof.
  intros H. unfold get_commands. rewrite H.
  destruct (get_commands_Ws_alpha libm this Vx angular from_twist
              Ws_indeterminate) as [Ws alpha].
  cbn [N.eqb BICYCLE_CONFIG TRICYCLE_CONFIG ACKERMANN_CONFIG
         FOUR_STEERING_CONFIG Pos.eqb].
  match goal with
  | |- context [let '(x, y) := ?p in _] => destruct p as [fl fr]
  end.
  eexists _, _, _, _. reflexivity.
Qed.

(** The tricycle and the Ackermann configuration command the same two wheel
    speeds. *)
Theorem get_commands_ackermann_traction_is_tricycle (this : SteeringOdometry)
  (Vx angular : float) (from_twist : bool) (Ws_indeterminate : float) :
  exists (traction_commands tricycle_steering ackermann_steering : list float),
    get_commands libm (set_odometry_type this TRICYCLE_CONFIG)
      Vx angular from_twist Ws_indeterminate
    = ret (traction_commands, tricycle_steering)
    /\ get_commands libm (set_odometry_type this ACKERMANN_CONFIG)
         Vx angular from_twist Ws_indeterminate
       = ret (traction_commands, ackermann_steering)
    /\ List.length traction_commands = 2%nat.
Proof.
  unfold get_commands.
  change (get_commands_Ws_alpha libm (set_odometry_type this ?c))
    with (get_commands_Ws_alpha libm this).
  destruct (get_commands_Ws_alpha libm this Vx angular from_twist
              Ws_indeterminate) as [Ws alpha].
  cbn [set_odometry_type set_config_type config_type_ steer_pos_ wheelbase_
         wheel_track_ N.eqb BICYCLE_CONFIG TRICYCLE_CONFIG ACKERMANN_CONFIG
         Pos.eqb].
  destruct (cmath.fabs (steer_pos_ this) <? 1e-6);
    eexists _, _, _; repeat split; reflexivity.
Qed.

Lemma update_from_velocity_keeps_configuration
  (this : SteeringOdometry) (vel steer dt : float) :
  configuration (snd (update_from_velocity libm this vel steer dt))
  = configuration this.
Proof.
  unfold update_from_velocity. cbv zeta.
  now rewrite (proj1 (update_odometry_frame _ _ _ _)).
Qed.

Lemma update_from_velocity_records_steering
  (this : SteeringOdometry) (vel steer dt : float) :
  steer_pos_ (snd (update_from_velocity libm this vel steer dt)) = steer.
Proof.
  unfold update_from_velocity. cbv zeta.
  now rewrite (proj1 (proj2 (proj2 (update_odometry_frame _ _ _ _)))).
Qed.

(** ** Commands after an update *)

(** The traction command computed from a twist uses the steering angle the
    last update recorded.  After [update_from_velocity] with steering angle
    [steer], whatever that call returned, a bicycle's command for a twist
    with [Vx != 0] is [Vx / (wheel_radius * cos(steer))], with steering
    command 0 for [angular == 0] and [atan(angular * wheelbase / Vx)]
    otherwise. *)
Theorem get_commands_after_update_from_velocity (this : SteeringOdometry)
  (vel steer dt Vx angular Ws_indeterminate : float) :
  config_type_ this = BICYCLE_CONFIG ->
  (Vx =? 0) = false ->
  get_commands libm (snd (update_from_velocity libm this vel steer dt))
    Vx angular true Ws_indeterminate
  = ret ([Vx / (wheel_radius_ this * cos steer)],
         [if angular =? 0 then 0
          else cmath.atan libm (angular * wheelbase_ this / Vx)]).
Proof.
  intros Hcfg HVx.
  pose proof (update_from_velocity_keeps_configuration this vel steer dt)
    as Hc.
  pose proof (update_from_velocity_records_steering this vel steer dt)
    as Hs.
  unfold configuration in Hc. injection Hc as HR HL _ _ HC _.
  unfold get_commands, get_commands_Ws_alpha,
    convert_trans_rot_vel_to_steering_angle.
  rewrite HC, Hcfg, HR, HL, Hs, HVx. cbn [andb orb N.eqb BICYCLE_CONFIG].
  rewrite orb_false_r. reflexivity.
Qed.

End MoreOdometryFacts.

(** * The [float] overloads of the speed limiter *)

Section FloatOverloadFacts.

Import four_steering_controller.

(** ** Comparisons and sums in any binary format *)

Lemma SFleb_not_nan (f g : spec_float) :
  SFleb f g = true -> f <> S754_nan /\ g <> S754_nan.
Proof.
  unfold SFleb. destruct (SFcompare f g) eqn:E; [|discriminate].
  intros _. split; intros N; rewrite N in E; [|destruct f]; discriminate.
Qed.

Lemma SFltb_not_nan (f g : spec_float) :
  SFltb f g = true -> f <> S754_nan /\ g <> S754_nan.
Proof.
  unfold SFltb. destruct (SFcompare f g) eqn:E; [|discriminate].
  intros _. split; intros N; rewrite N in E; [|destruct f]; discriminate.
Qed.

Lemma SFleb_refl (f : spec_float) : f <> S754_nan -> SFleb f f = true.
Proof. intros H. unfold SFleb. now rewrite SFcompare_refl. Qed.

Lemma SFltb_false_SFleb (f g : spec_float) :
  f <> S754_nan -> g <> S754_nan -> SFltb f g = false -> SFleb g f = true.
Proof.
  unfold SFltb, SFleb. intros Hf Hg. rewrite (SFcompare_antisym f g).
  destruct (SFcompare f g) as [[]|] eqn:E; cbn; try congruence.
  apply SFcompare_None in E. tauto.
Qed.

Lemma clamp_float_within (v lo hi : spec_float) :
  binary32.leb lo hi = true -> v <> S754_nan ->
  within_float lo hi (binary32.clamp v lo hi) = true.
Proof.
  unfold binary32.leb, within_float, binary32.clamp, binary32.ltb.
  intros Hb Hv. destruct (SFleb_not_nan _ _ Hb) as [Hlo Hhi].
  destruct (SFltb v lo) eqn:E1.
  - unfold binary32.leb. now rewrite SFleb_refl, Hb.
  - destruct (SFltb hi v) eqn:E2; unfold binary32.leb.
    + now rewrite Hb, SFleb_refl.
    + now rewrite (SFltb_false_SFleb v lo), (SFltb_false_SFleb hi v).
Qed.

Lemma clamp_float_not_nan (v lo hi : spec_float) :
  v <> S754_nan -> binary32.clamp v lo hi <> S754_nan.
Proof.
  intros Hv. unfold binary32.clamp, binary32.ltb.
  destruct (SFltb v lo) eqn:E1; [apply (SFltb_not_nan _ _ E1)|].
  destruct (SFltb hi v) eqn:E2; [apply (SFltb_not_nan _ _ E2)|exact Hv].
Qed.

Lemma clamp_float_nan (lo hi : spec_float) :
  binary32.clamp S754_nan lo hi = S754_nan.
Proof.
  unfold binary32.clamp, binary32.ltb. cbn.
  destruct (SFltb hi S754_nan) eqn:E; [|reflexivity].
  apply SFltb_not_nan in E. now destruct E.
Qed.

Lemma shr_fexp_nonneg_at (p em m e : Z) (l : location) :
  (0 <= m)%Z -> (0 <= shr_m (fst (shr_fexp p em m e l)))%Z.
Proof.
  intros Hm. unfold shr_fexp, shr.
  assert (H0 : (0 <= shr_m (shr_record_of_loc m l))%Z)
    by (destruct l as [|[]]; exact Hm).
  destruct (fexp p em (Zdigits2 m + e) - e)%Z; cbn [fst]; auto.
  now apply (iter_pos_invariant (fun r => (0 <= shr_m r)%Z) shr_1 shr_1_nonneg).
Qed.

Lemma binary_round_aux_not_nan_at (p em : Z) (sx : bool) (mx ex : Z)
  (lx : location) :
  (0 <= mx)%Z -> binary_round_aux p em sx mx ex lx <> S754_nan.
Proof.
  intros Hm. unfold binary_round_aux.
  pose proof (shr_fexp_nonneg_at p em mx ex lx Hm) as H1.
  destruct (shr_fexp p em mx ex lx) as [mrs' e']. cbn [fst] in H1.
  pose proof (shr_fexp_nonneg_at p em _ e' loc_Exact
                (round_nearest_even_nonneg _ (loc_of_shr_record mrs') H1)) as H2.
  destruct (shr_fexp p em _ e' loc_Exact) as [mrs'' e'']. cbn [fst] in H2.
  destruct (shr_m mrs''); try discriminate; [|lia].
  destruct (e'' <=? em - p)%Z; discriminate.
Qed.

Lemma binary_normalize_not_nan_at (p em m e : Z) (szero : bool) :
  binary_normalize p em m e szero <> S754_nan.
Proof.
  destruct m; cbn; try discriminate; unfold binary_round;
    destruct (shl_align _ _ _); now apply binary_round_aux_not_nan_at.
Qed.

Lemma add_float_not_nan (f g : spec_float) :
  SFfinite f -> g <> S754_nan -> binary32.add f g <> S754_nan.
Proof.
  unfold binary32.add.
  destruct f as [s|s| |s m e], g as [s'|s'| |s' m' e']; cbn;
    try tauto; try discriminate; intros _ _.
  - destruct s, s'; discriminate.
  - apply binary_normalize_not_nan_at.
Qed.

Lemma sub_float_not_nan (f g : spec_float) :
  f <> S754_nan -> SFfinite g -> binary32.sub f g <> S754_nan.
Proof.
  unfold binary32.sub.
  destruct f as [s|s| |s m e], g as [s'|s'| |s' m' e']; cbn;
    try tauto; try discriminate; intros _ _.
  - destruct s, s'; discriminate.
  - apply binary_normalize_not_nan_at.
Qed.

Lemma add_float_nan (f : spec_float) : binary32.add f S754_nan = S754_nan.
Proof. now destruct f. Qed.

(** ** The stages *)

Lemma limit_float_snd (this : SpeedLimiter) (v v0 v1 dt : spec_float) :
  snd (limit_float this v v0 v1 dt)
  = snd (limit_velocity_float this
           (snd (limit_acceleration_float this
                   (snd (limit_jerk_float this v v0 v1 dt)) v0 dt))).
Proof.
  unfold limit_float.
  destruct (limit_jerk_float this v v0 v1 dt) as [rj vj]. cbn [snd].
  destruct (limit_acceleration_float this vj v0 dt) as [ra va]. cbn [snd].
  now destruct (limit_velocity_float this va).
Qed.

(** The [float] overload of [limit] bounds its result by the velocity limits
    rounded to [float]: with velocity limits enabled and the rounded minimum
    at most the rounded maximum, the value it leaves in [v] lies between the
    two, for every finite [v0] and every [v], [v1] and [dt] for which the
    jerk stage does not leave a NaN. *)
Theorem limit_float_within_velocity_limits
  (this : SpeedLimiter) (v v0 v1 dt : spec_float) :
  has_velocity_limits_ this = true ->
  binary32.leb (binary32.of_double (min_velocity_ this))
    (binary32.of_double (max_velocity_ this)) = true ->
  SFfinite v0 ->
  snd (limit_jerk_float this v v0 v1 dt) <> S754_nan ->
  within_float (binary32.of_double (min_velocity_ this))
    (binary32.of_double (max_velocity_ this))
    (snd (limit_float this v v0 v1 dt)) = true.
Proof.
  intros Hhas Hb Hv0 Hj. rewrite limit_float_snd.
  set (vj := snd (limit_jerk_float this v v0 v1 dt)) in *.
  unfold limit_velocity_float. cbn [snd]. rewrite Hhas.
  apply clamp_float_within; [exact Hb|].
  unfold limit_acceleration_float. cbn [snd].
  destruct (has_acceleration_limits_ this); [|exact Hj].
  apply add_float_not_nan; [exact Hv0|].
  now apply clamp_float_not_nan, sub_float_not_nan.
Qed.

(** The [float] overload of [limit] does not remove a NaN either: given a
    NaN it leaves a NaN in [v] and returns a NaN. *)
Theorem limit_float_passes_nan (this : SpeedLimiter) (v0 v1 dt : spec_float) :
  limit_float this S754_nan v0 v1 dt = (S754_nan, S754_nan).
Proof.
  unfold limit_float, limit_jerk_float, limit_acceleration_float,
    limit_velocity_float.
  destruct (has_jerk_limits_ this), (has_acceleration_limits_ this),
    (has_velocity_limits_ this); cbv zeta beta iota;
    change (binary32.sub S754_nan ?x) with S754_nan;
    rewrite ?clamp_float_nan, ?add_float_nan;
    change (binary32.sub S754_nan ?x) with S754_nan;
    rewrite ?clamp_float_nan, ?add_float_nan, ?clamp_float_nan;
    reflexivity.
Qed.

End FloatOverloadFacts.

(** * The velocity stage is monotone *)

Section Monotonicity.

Import four_steering_controller.

Lemma SFleb_trans (f g h : spec_float) :
  SFleb f g = true -> SFleb g h = true -> SFleb f h = true.
Proof.
  unfold SFleb.
  destruct f as [[]|[]| |[] m e], g as [[]|[]| |[] m' e'],
    h as [[]|[]| |[] m'' e'']; cbn; try reflexivity; try discriminate;
    change (Pos.compare_cont Eq ?a ?b) with (Pos.compare a b);
    destruct (Z.compare_spec e e'); cbn; try discriminate;
    destruct (Z.compare_spec e' e''); cbn; try discriminate;
    destruct (Z.compare_spec e e''); cbn; try reflexivity; try lia;
    destruct (Pos.compare_spec m m'); cbn; try discriminate;
    destruct (Pos.compare_spec m' m''); cbn; try discriminate;
    destruct (Pos.compare_spec m m''); cbn; try reflexivity; try lia.
Qed.

Lemma SFltb_SFleb (f g : spec_float) : SFltb f g = true -> SFleb f g = true.
Proof.
  unfold SFltb, SFleb. now destruct (SFcompare f g) as [[]|].
Qed.

Lemma SFleb_SFltb_false (f g : spec_float) :
  SFleb f g = true -> SFltb g f = false.
Proof.
  unfold SFleb, SFltb. rewrite (SFcompare_antisym f g).
  now destruct (SFcompare f g) as [[]|].
Qed.

(** Clamping between ordered bounds keeps the order of two numbers. *)
Lemma clamp_float_monotone (v w lo hi : spec_float) :
  SFleb lo hi = true -> SFleb v w = true ->
  SFleb (binary32.clamp v lo hi) (binary32.clamp w lo hi) = true.
Proof.
  intros Hb Hvw.
  destruct (SFleb_not_nan _ _ Hb) as [Nlo Nhi].
  destruct (SFleb_not_nan _ _ Hvw) as [Nv Nw].
  unfold binary32.clamp, binary32.ltb.
  destruct (SFltb v lo) eqn:V1; [|destruct (SFltb hi v) eqn:V2];
    (destruct (SFltb w lo) eqn:W1; [|destruct (SFltb hi w) eqn:W2]).
  - now apply SFleb_refl.
  - exact Hb.
  - now apply SFltb_false_SFleb.
  - assert (H : SFleb lo w = true).
    { apply (SFleb_trans lo hi w Hb).
      apply (SFleb_trans hi v w); [now apply SFltb_SFleb|exact Hvw]. }
    apply SFleb_SFltb_false in H. congruence.
  - now apply SFleb_refl.
  - apply (SFleb_trans hi v w); [now apply SFltb_SFleb|exact Hvw].
  - apply (SFleb_trans v w lo Hvw). now apply SFltb_SFleb.
  - now apply SFltb_false_SFleb.
  - exact Hvw.
Qed.

Lemma Prim2SF_clamp (v lo hi : float) :
  Prim2SF (rcppmath.clamp v lo hi)
  = binary32.clamp (Prim2SF v) (Prim2SF lo) (Prim2SF hi).
Proof.
  unfold rcppmath.clamp, binary32.clamp, binary32.ltb.
  rewrite <- !FloatAxioms.ltb_spec.
  destruct (v <? lo); [reflexivity|]. now destruct (hi <? v).
Qed.

(** With ordered limits the velocity stage keeps the order of two numbers:
    a larger request never yields a smaller velocity. *)
Theorem limit_velocity_monotone (this : SpeedLimiter) (v w : float) :
  (min_velocity_ this <=? max_velocity_ this) = true ->
  (v <=? w) = true ->
  (snd (limit_velocity this v) <=? snd (limit_velocity this w)) = true.
Proof.
  intros Hb Hvw. unfold limit_velocity. cbn [snd].
  destruct (has_velocity_limits_ this); [|exact Hvw].
  rewrite FloatAxioms.leb_spec in *. rewrite !Prim2SF_clamp.
  now apply clamp_float_monotone.
Qed.

(** The same for the [float] overload, with the limits rounded to [float]. *)
Theorem limit_velocity_float_monotone (this : SpeedLimiter)
  (v w : spec_float) :
  binary32.leb (binary32.of_double (min_velocity_ this))
    (binary32.of_double (max_velocity_ this)) = true ->
  binary32.leb v w = true ->
  binary32.leb (snd (limit_velocity_float this v))
    (snd (limit_velocity_float this w)) = true.
Proof.
  unfold binary32.leb. intros Hb Hvw. unfold limit_velocity_float. cbn [snd].
  destruct (has_velocity_limits_ this); [|exact Hvw].
  now apply clamp_float_monotone.
Qed.

End Monotonicity.

(** * The further theorems on concrete inputs *)

Section MoreOnConcreteInputs.

Import four_steering_controller steering_odometry.

Lemma make_enabled_bounds_are_numbers_witness :
  (has_velocity_limits_ unit_limiter = true ->
   is_nan (min_velocity_ unit_limiter) = false
   /\ is_nan (max_velocity_ unit_limiter) = false)
  /\ (has_acceleration_limits_ unit_limiter = true ->
      is_nan (min_acceleration_ unit_limiter) = false
      /\ is_nan (max_acceleration_ unit_limiter) = false)
  /\ (has_jerk_limits_ unit_limiter = true ->
      is_nan (min_jerk_ unit_limiter) = false
      /\ is_nan (max_jerk_ unit_limiter) = false).
Proof.
  apply (make_enabled_bounds_are_numbers true true true nan 1 nan 1 nan 1).
  reflexivity.
Defined.

Lemma make_accepts_inverted_bounds_witness :
  exists this : SpeedLimiter,
    four_steering_controller.make true false false nan (-1) 0 0 0 0 = inr this
    /\ min_velocity_ this = - (-1)
    /\ (max_velocity_ this <? min_velocity_ this) = true.
Proof.
  apply (make_accepts_inverted_bounds (-1) 0 0 0 0). reflexivity.
Defined.

Lemma limit_velocity_in_range_witness :
  snd (limit_velocity unit_limiter 0.25) = 0.25.
Proof.
  apply (limit_velocity_in_range unit_limiter 0.25). reflexivity.
Defined.

Lemma limit_velocity_idempotent_witness :
  snd (limit_velocity unit_limiter (snd (limit_velocity unit_limiter 5)))
  = snd (limit_velocity unit_limiter 5).
Proof.
  apply (limit_velocity_idempotent unit_limiter 5). reflexivity.
Defined.

Lemma limit_acceleration_step_bounded_witness :
  exists dv : float,
    snd (limit_acceleration unit_limiter 1 0 0.1) = 0 + dv
    /\ within (-1 * 0.1) (1 * 0.1) dv = true.
Proof.
  apply (limit_acceleration_step_bounded unit_limiter 1 0 0.1); reflexivity.
Defined.

Lemma limit_jerk_step_bounded_witness :
  exists da : float,
    snd (limit_jerk unit_limiter 1 0 0 0.1) = 0 + (0 - 0) + da
    /\ within (-1 * (2 * 0.1 * 0.1)) (1 * (2 * 0.1 * 0.1)) da = true.
Proof.
  apply (limit_jerk_step_bounded unit_limiter 1 0 0 0.1); reflexivity.
Defined.

(** With the bounds the wrong way round, as after a negative [dt], the
    acceleration stage does not bound the step: here to [v0 + 0.1] although
    the requested value is below [v0]. *)
Example limit_acceleration_negative_dt :
  snd (limit_acceleration unit_limiter (-1) 0 (-0.1)) = 0.1.
Proof. reflexivity. Qed.

Lemma update_odometry_large_dt_witness :
  let r := update_odometry cmath.approx (vehicle BICYCLE_CONFIG) 1 0.2 0.1 in
  fst r = true
  /\ linear_acc_ (snd r)
     = rcppmath.accumulate (linear_acc_ (vehicle BICYCLE_CONFIG)) 1
  /\ angular_acc_ (snd r)
     = rcppmath.accumulate (angular_acc_ (vehicle BICYCLE_CONFIG)) (0.2 / 0.1)
  /\ linear_ (snd r) = rcppmath.getRollingMean (linear_acc_ (snd r))
  /\ angular_ (snd r) = rcppmath.getRollingMean (angular_acc_ (snd r)).
Proof.
  apply (update_odometry_large_dt cmath.approx (vehicle BICYCLE_CONFIG)
           1 0.2 0.1).
  reflexivity.
Defined.

Lemma update_odometry_pose_independent_witness :
  pose (snd (update_odometry cmath.approx
               (set_linear (vehicle BICYCLE_CONFIG) 3) 1 0.2 0.1))
  = pose (snd (update_odometry cmath.approx (vehicle BICYCLE_CONFIG)
                 1 0.2 0.1)).
Proof.
  apply (update_odometry_pose_independent cmath.approx
           (set_linear (vehicle BICYCLE_CONFIG) 3) (vehicle BICYCLE_CONFIG)).
  reflexivity.
Defined.

Lemma get_commands_four_steering_rear_mirrors_front_witness :
  exists left_traction right_traction left_steering right_steering : float,
    get_commands cmath.approx (vehicle FOUR_STEERING_CONFIG) 1 0.2 true 0
    = ret ([left_traction; right_traction; left_traction; right_traction],
           [left_steering; right_steering;
            - left_steering; - right_steering]).
Proof.
  apply (get_commands_four_steering_rear_mirrors_front cmath.approx
           (vehicle FOUR_STEERING_CONFIG)).
  reflexivity.
Defined.

Lemma limit_float_within_velocity_limits_witness :
  within_float (binary32.of_double (-1)) (binary32.of_double 1)
    (snd (limit_float unit_limiter (binary32.of_double 5)
            (binary32.of_double 0.5) (binary32.of_double 0.25)
            (binary32.of_double 0.1))) = true.
Proof.
  apply (limit_float_within_velocity_limits unit_limiter);
    [reflexivity | vm_compute; reflexivity | exact I
    | vm_compute; discriminate].
Defined.

(** The [float] overload clamps to the rounded limit: with a maximum of 0.1
    it leaves the [float] nearest to 0.1, which is above 0.1. *)
Example limit_velocity_float_rounds_the_limit :
  let this :=
    {| has_velocity_limits_ := true;
       has_acceleration_limits_ := false;
       has_jerk_limits_ := false;
       min_velocity_ := -0.1; max_velocity_ := 0.1;
       min_acceleration_ := nan; max_acceleration_ := nan;
       min_jerk_ := nan; max_jerk_ := nan |} in
  let v := snd (limit_velocity_float this (binary32.of_double 5)) in
  v = binary32.of_double 0.1
  /\ (0.1 <? binary32.to_double v) = true.
Proof. split; vm_compute; reflexivity. Qed.

(** The examples of the [double] overloads, in [float]. *)
Example limit_float_examples :
  snd (limit_velocity_float unit_limiter (binary32.of_double 5))
  = binary32.of_double 1
  /\ snd (limit_acceleration_float unit_limiter (binary32.of_double 1)
            (binary32.of_double 0) (binary32.of_double 0.1))
     = binary32.of_double 0.1.
Proof. split; vm_compute; reflexivity. Qed.

Lemma limit_velocity_monotone_witness :
  (snd (limit_velocity unit_limiter 0.5) <=? snd (limit_velocity unit_limiter 5))
  = true.
Proof.
  apply (limit_velocity_monotone unit_limiter 0.5 5); reflexivity.
Defined.

Lemma limit_velocity_float_monotone_witness :
  binary32.leb
    (snd (limit_velocity_float unit_limiter (binary32.of_double 0.5)))
    (snd (limit_velocity_float unit_limiter (binary32.of_double 5))) = true.
Proof.
  apply (limit_velocity_float_monotone unit_limiter
           (binary32.of_double 0.5) (binary32.of_double 5));
    vm_compute; reflexivity.
Defined.

Lemma get_commands_after_update_from_velocity_witness :
  get_commands cmath.approx
    (snd (update_from_velocity cmath.approx (vehicle BICYCLE_CONFIG)
            1 0.2 0.00005))
    1 0.3 true 0
  = ret ([1 / (0.5 * cmath.cos cmath.approx 0.2)],
         [cmath.atan cmath.approx (0.3 * 1 / 1)]).
Proof.
  apply (get_commands_after_update_from_velocity cmath.approx
           (vehicle BICYCLE_CONFIG) 1 0.2 0.00005 1 0.3 0);
    reflexivity.
Defined.

End MoreOnConcreteInputs.
